(** * Visualización de accidentes (Madrid 2024): the loader and the views of [app.py]

    A shallow embedding of the data preparation ([load_data]) and of the
    filter-and-aggregate code behind each chart of [src/app.py], with the
    properties the specification states about them.

    A pandas [DataFrame] is a list of rows, each row a finite map from column
    name to cell; a column assignment [df[c] = f(...)] whose right-hand side is
    computed element by element is a map over the rows that inserts [c]. *)

From Stdlib Require Import ZArith QArith String Ascii List Lia.
From stdpp Require Import gmap strings list fin_maps sorting.

Local Open Scope string_scope.
Local Open Scope Z_scope.

(** ** Cells, rows and frames *)

(** A [datetime64] value, by its calendar and clock fields. *)
Record Timestamp := MkTimestamp {
  year : Z; month : Z; day : Z; hour : Z; minute : Z; second : Z
}.

(** What a cell of a frame holds.  [NaN] stands for every value pandas counts
    as missing ([NaN], [NaT], [None]). *)
Inductive valor : Type :=
  | NaN
  | Texto (s : string)
  | Entero (z : Z)
  | Real (q : Q)
  | Logico (b : bool)
  | Marca (t : Timestamp).

#[global] Instance Q_eq_dec : EqDecision Q.
Proof. solve_decision. Defined.

#[global] Instance Timestamp_eq_dec : EqDecision Timestamp.
Proof. solve_decision. Defined.

#[global] Instance valor_eq_dec : EqDecision valor.
Proof. solve_decision. Defined.

Abbreviation Fila := (gmap string valor).
Abbreviation DataFrame := (list (gmap string valor)).

(** [row[c]]; a column the row does not hold reads as missing, as in a frame
    built from records. *)
Definition campo (c : string) (r : Fila) : valor := default NaN (r !! c).

(** [df[c] = f(df)] for an element-wise [f]. *)
Definition asigna (c : string) (f : Fila → valor) (df : DataFrame) : DataFrame :=
  (λ r, <[c := f r]> r) <$> df.

Definition isna (v : valor) : bool :=
  match v with NaN => true | _ => false end.

Definition notna (v : valor) : bool := negb (isna v).

(** Numbers as Python compares them ([bool] is a number there). *)
Definition numero (v : valor) : option Q :=
  match v with
  | Entero z => Some (inject_Z z)
  | Real q => Some q
  | Logico b => Some (inject_Z (if b then 1 else 0))
  | _ => None
  end.

Definition Timestamp_eqb (a b : Timestamp) : bool :=
  (year a =? year b) && (month a =? month b) && (day a =? day b) &&
  (hour a =? hour b) && (minute a =? minute b) && (second a =? second b).

(** The element-wise [==] of a column against a scalar: a missing cell is
    equal to nothing, values of unrelated types are different. *)
Definition igual (a b : valor) : bool :=
  match a, b with
  | Texto s, Texto t => String.eqb s t
  | Marca s, Marca t => Timestamp_eqb s t
  | _, _ =>
      match numero a, numero b with
      | Some p, Some q => Qeq_bool p q
      | _, _ => false
      end
  end.

(** [Series.isin(values)] for a list of labels. *)
Definition isin (values : list string) (v : valor) : bool :=
  match v with
  | Texto s => bool_decide (s ∈ values)
  | _ => false
  end.

(** [df.dropna(subset=cols)]. *)
Definition dropna (subset : list string) (df : DataFrame) : DataFrame :=
  filter (λ r, forallb (λ c, notna (campo c r)) subset = true) df.

(** [Series.fillna(x)]. *)
Definition fillna (x : valor) (v : valor) : valor :=
  if isna v then x else v.

(** [Series.replace({a: b})] on labels. *)
Definition replace (a b : string) (v : valor) : valor :=
  match v with
  | Texto s => if String.eqb s a then Texto b else v
  | _ => v
  end.

(** The labels of a column, missing cells dropped: [df[c].dropna()] on a
    column of text. *)
Definition etiquetas (c : string) (df : DataFrame) : list string :=
  omap (λ r, match campo c r with Texto s => Some s | _ => None end) df.

(** [unique()]: first occurrences, in order of appearance. *)
Fixpoint unique {A} `{EqDecision A} (l : list A) : list A :=
  match l with
  | [] => []
  | x :: l => x :: filter (λ y, y ≠ x) (unique l)
  end.

(** [sorted(...)] on labels: Python orders [str] by code point, which on
    UTF-8 text is the order of the bytes. *)
Definition sorted (l : list string) : list string := merge_sort String.le l.

(** ** Results of the loader *)

Inductive resultado (A : Type) : Type :=
  | Listo (a : A)
  | Detenido                   (* st.error(...) ; st.stop() *)
  | Excepcion.                 (* an exception leaves the function *)
Arguments Listo {A} a.
Arguments Detenido {A}.
Arguments Excepcion {A}.

Definition ligar {A B} (m : resultado A) (k : A → resultado B) : resultado B :=
  match m with
  | Listo a => k a
  | Detenido => Detenido
  | Excepcion => Excepcion
  end.

Notation "x ←← m ;; k" := (ligar m (λ x, k))
  (at level 100, m at next level, k at level 200, right associativity).

(** A column assignment whose right-hand side may raise: the first cell that
    raises aborts the whole statement. *)
Fixpoint asigna_o (c : string) (f : Fila → resultado valor) (df : DataFrame)
  : resultado DataFrame :=
  match df with
  | [] => Listo []
  | r :: df =>
      v ←← f r ;;
      df' ←← asigna_o c f df ;;
      Listo (<[c := v]> r :: df')
  end.

(** ** Parsing the time of day: [format="%H:%M:%S"] *)

Definition digito (c : ascii) : option Z :=
  let n := Z.of_N (N_of_ascii c) in
  if (48 <=? n) && (n <=? 57) then Some (n - 48) else None.

(** The ways one numeric directive can match at the head of [s], in the order
    the pattern tries them: two digits that stay within [tope] first, then a
    single digit.  [%H] is [2[0-3]|[0-1]\d|\d] (tope 23), [%M] is
    [[0-5]\d|\d] (tope 59) and [%S] is [6[0-1]|[0-5]\d|\d] (tope 61). *)
Definition directiva (tope : Z) (s : string) : list (Z * string) :=
  match s with
  | String a r =>
      match digito a with
      | Some x =>
          match r with
          | String b r' =>
              match digito b with
              | Some y => if 10 * x + y <=? tope then [(10 * x + y, r')] else []
              | None => []
              end
          | EmptyString => []
          end ++ [(x, r)]
      | None => []
      end
  | EmptyString => []
  end.

Definition literal (c : ascii) (s : string) : list string :=
  match s with
  | String a r => if Ascii.eqb a c then [r] else []
  | EmptyString => []
  end.

(** Every match of the whole pattern at the head of [s], in backtracking
    order, with the text left over. *)
Definition coincidencias (s : string) : list (Z * Z * Z * string) :=
  '(h, s1) ← directiva 23 s;
  s2 ← literal ":" s1;
  '(m, s3) ← directiva 59 s2;
  s4 ← literal ":" s3;
  '(sec, s5) ← directiva 61 s4;
  [(h, m, sec, s5)].

(** The fields the format yields: the first match, which must use up the
    whole text. *)
Definition strptime_HMS (s : string) : option (Z * Z * Z) :=
  match coincidencias s with
  | (h, m, sec, EmptyString) :: _ => Some (h, m, sec)
  | _ => None
  end.

(** The fields are turned into a point in time on 1900-01-01 by plain
    arithmetic, so the seconds 60 and 61 the pattern lets through carry
    over. *)
Definition de_campos (h m sec : Z) : Timestamp :=
  let t := h * 3600 + m * 60 + sec in
  {| year := 1900; month := 1; day := 1 + t / 86400;
     hour := (t / 3600) mod 24; minute := (t / 60) mod 60; second := t mod 60 |}.

(** [pd.to_datetime(cell, format="%H:%M:%S", errors="coerce")]. *)
Definition to_datetime_HMS (v : valor) : valor :=
  match v with
  | Texto s =>
      match strptime_HMS s with
      | Some (h, m, sec) => Marca (de_campos h m sec)
      | None => NaN
      end
  | _ => NaN
  end.

(** [Series.dt.hour]. *)
Definition dt_hour (v : valor) : valor :=
  match v with
  | Marca t => Entero (hour t)
  | _ => NaN
  end.

(** ** Day of the week *)

(** Days since 1970-01-01 of a civil date. *)
Definition dias_desde_epoca (y m d : Z) : Z :=
  let y' := if m <=? 2 then y - 1 else y in
  let era := y' / 400 in
  let yoe := y' - era * 400 in
  let mp := (m + 9) mod 12 in
  let doy := (153 * mp + 2) / 5 + d - 1 in
  let doe := yoe * 365 + yoe / 4 - yoe / 100 + doy in
  era * 146097 + doe - 719468.

Definition nombres_ingleses : list string :=
  ["Monday"; "Tuesday"; "Wednesday"; "Thursday"; "Friday"; "Saturday"; "Sunday"].

(** [Series.dt.day_name()]. *)
Definition dt_day_name (v : valor) : valor :=
  match v with
  | Marca t =>
      let w := (dias_desde_epoca (year t) (month t) (day t) + 3) mod 7 in
      match nombres_ingleses !! Z.to_nat w with
      | Some s => Texto s
      | None => NaN
      end
  | _ => NaN
  end.

Definition dias_map : gmap string string :=
  list_to_map
    [("Monday", "Lunes"); ("Tuesday", "Martes"); ("Wednesday", "Miércoles");
     ("Thursday", "Jueves"); ("Friday", "Viernes"); ("Saturday", "Sábado");
     ("Sunday", "Domingo")].

Definition orden : list string :=
  ["Lunes"; "Martes"; "Miércoles"; "Jueves"; "Viernes"; "Sábado"; "Domingo"].

(** [Series.map(d)] with a dict: a key the dict lacks maps to missing. *)
Definition map_dict (d : gmap string string) (v : valor) : valor :=
  match v with
  | Texto s => match d !! s with Some t => Texto t | None => NaN end
  | _ => NaN
  end.

(** [pd.Categorical(values, categories=cats, ordered=True)]: a value outside
    the categories becomes missing. *)
Definition Categorical (cats : list string) (v : valor) : valor :=
  match v with
  | Texto s => if bool_decide (s ∈ cats) then v else NaN
  | _ => NaN
  end.

(** ** The loader *)

Section Carga.

(** pandas' day-first parser on one non-missing cell of the date column;
    [None] when it raises. *)
Variable analiza_fecha : valor → option Timestamp.

(** The pyproj transformer from EPSG:25830 to EPSG:4326 ([always_xy]), on
    the cells of one point; with the default [errcheck=False] it returns
    for every point and does not raise. *)
Variable transformer : valor → valor → valor * valor.

(** [pd.to_datetime(cell, dayfirst=True)], with the default
    [errors="raise"]. *)
Definition to_datetime_dayfirst (v : valor) : resultado valor :=
  if isna v then Listo NaN
  else match analiza_fecha v with
       | Some t => Listo (Marca t)
       | None => Excepcion
       end.

(** The body of [load_data] from [pd.read_csv] on. *)
Definition prepara (df : DataFrame) : resultado DataFrame :=
  df ←← asigna_o "fecha" (λ r, to_datetime_dayfirst (campo "fecha" r)) df ;;
  let df := asigna "hora_dt" (λ r, to_datetime_HMS (campo "hora" r)) df in
  let df := asigna "hora_num" (λ r, dt_hour (campo "hora_dt" r)) df in
  let df := asigna "dia_semana"
              (λ r, map_dict dias_map (dt_day_name (campo "fecha" r))) df in
  let df := asigna "dia_semana" (λ r, Categorical orden (campo "dia_semana" r)) df in
  let df := asigna "lon"
              (λ r, fst (transformer (campo "coordenada_x_utm" r)
                                     (campo "coordenada_y_utm" r))) df in
  let df := asigna "lat"
              (λ r, snd (transformer (campo "coordenada_x_utm" r)
                                     (campo "coordenada_y_utm" r))) df in
  let df := asigna "alcohol" (λ r, Logico (igual (campo "positiva_alcohol" r) (Texto "S"))) df in
  let df := asigna "rango_edad"
              (λ r, replace "Más de 74 años" "> 74" (campo "rango_edad" r)) df in
  let df := asigna "lesividad" (λ r, fillna (Texto "Se desconoce") (campo "lesividad" r)) df in
  Listo df.

(** The file [load_data] settles on: each of the two candidate paths holds
    the table its file reads as, or nothing when the path does not exist. *)
Definition data_path (principal secundario : option DataFrame) : option DataFrame :=
  match principal with
  | Some _ => principal
  | None => secundario
  end.

(** [load_data()]. *)
Definition load_data (principal secundario : option DataFrame) : resultado DataFrame :=
  match data_path principal secundario with
  | None => Detenido
  | Some df => prepara df
  end.

(** What the statements of [prepara] together make of one row, given the
    parsed date: the row-wise reading of the same assignments. *)
Definition fila_preparada (t : valor) (r : Fila) : Fila :=
  let r := <["fecha" := t]> r in
  let r := <["hora_dt" := to_datetime_HMS (campo "hora" r)]> r in
  let r := <["hora_num" := dt_hour (campo "hora_dt" r)]> r in
  let r := <["dia_semana" := map_dict dias_map (dt_day_name (campo "fecha" r))]> r in
  let r := <["dia_semana" := Categorical orden (campo "dia_semana" r)]> r in
  let r := <["lon" := fst (transformer (campo "coordenada_x_utm" r)
                                       (campo "coordenada_y_utm" r))]> r in
  let r := <["lat" := snd (transformer (campo "coordenada_x_utm" r)
                                       (campo "coordenada_y_utm" r))]> r in
  let r := <["alcohol" := Logico (igual (campo "positiva_alcohol" r) (Texto "S"))]> r in
  let r := <["rango_edad" := replace "Más de 74 años" "> 74" (campo "rango_edad" r)]> r in
  <["lesividad" := fillna (Texto "Se desconoce") (campo "lesividad" r)]> r.

Definition prepara_fila (r r' : Fila) : Prop :=
  ∃ t, to_datetime_dayfirst (campo "fecha" r) = Listo t
       ∧ r' = fila_preparada t r.

End Carga.

(** The columns [prepara] writes. *)
Definition columnas_escritas : list string :=
  ["fecha"; "hora_dt"; "hora_num"; "dia_semana"; "lon"; "lat"; "alcohol";
   "rango_edad"; "lesividad"].

(** ** A concrete reading of the date column

    The dataset writes its dates as [dd/mm/yyyy]; this parser reads exactly
    that shape and serves where a concrete parser is needed. *)

Fixpoint digitos (s : string) (acc : Z) : option (Z * string) :=
  match s with
  | String a r =>
      match digito a with
      | Some x =>
          match digitos r (10 * acc + x) with
          | Some p => Some p
          | None => Some (10 * acc + x, r)
          end
      | None => None
      end
  | EmptyString => None
  end.

Definition bisiesto (y : Z) : bool :=
  ((y mod 4 =? 0) && negb (y mod 100 =? 0)) || (y mod 400 =? 0).

Definition dias_del_mes (y m : Z) : Z :=
  if m =? 2 then (if bisiesto y then 29 else 28)
  else if (m =? 4) || (m =? 6) || (m =? 9) || (m =? 11) then 30
  else 31.

Definition fecha_dmy (v : valor) : option Timestamp :=
  match v with
  | Texto s =>
      '(d, s1) ← digitos s 0;
      s2 ← head (literal "/" s1);
      '(m, s3) ← digitos s2 0;
      s4 ← head (literal "/" s3);
      '(y, s5) ← digitos s4 0;
      if String.eqb s5 "" && (1 <=? m) && (m <=? 12) && (1 <=? d) && (d <=? dias_del_mes y m)
         && (1678 <=? y) && (y <=? 2261)
      then Some {| year := y; month := m; day := d; hour := 0; minute := 0; second := 0 |}
      else None
  | _ => None
  end.

(** A stand-in for the projection where a concrete one is needed: it scales
    numbers and passes everything else on as missing. *)
Definition transformador_lineal (x y : valor) : valor * valor :=
  match numero x, numero y with
  | Some p, Some q => (Real (p / 100000 - 8)%Q, Real (q / 100000 - 4)%Q)
  | _, _ => (NaN, NaN)
  end.

(** ** 1. The spatial density view *)

Definition graves : list string :=
  ["Ingreso superior a 24 horas"; "Fallecido 24 horas"].

(** [df_map] as the map layer receives it, for the scenario chosen on the
    radio and the hour chosen on the slider. *)
Definition df_map (df : DataFrame) (escenario : string) (hora_mapa : Z) : DataFrame :=
  let df_map :=
    dropna ["lat"; "lon"]
      (filter (λ r, igual (campo "hora_num" r) (Entero hora_mapa) = true) df) in
  if String.eqb escenario "Sólo graves o mortales" then
    filter (λ r, isin graves (campo "lesividad" r) = true) df_map
  else if String.eqb escenario "Sólo atropellos" then
    filter (λ r, igual (campo "tipo_persona" r) (Texto "Peatón") = true) df_map
  else df_map.

(** [get_position="[lon, lat]"]. *)
Definition posiciones (df : DataFrame) : list (valor * valor) :=
  (λ r, (campo "lon" r, campo "lat" r)) <$> df.

Inductive vista_mapa : Type :=
  | Aviso                                      (* st.warning: no data *)
  | Hexagonos (puntos : list (valor * valor)). (* the HexagonLayer *)

Definition mapa (df : DataFrame) (escenario : string) (hora_mapa : Z) : vista_mapa :=
  match df_map df escenario hora_mapa with
  | [] => Aviso
  | d => Hexagonos (posiciones d)
  end.

(** ** 2. Alcohol at the weekend *)

Definition dias_posibles : list string := ["Viernes"; "Sábado"; "Domingo"].

(** [df_alc]; [remove_unused_categories()] changes no cell and leaves the
    days that remain in the order of [orden]. *)
Definition df_alc (df : DataFrame) (dias_sel : list string) : DataFrame :=
  filter (λ r, igual (campo "alcohol" r) (Logico true)
               && isin dias_sel (campo "dia_semana" r) = true) df.

(** The group a row falls in under [groupby(["hora_num", "dia_semana"])]; a
    row with a missing key is in no group.  [hora_num] holds whole hours and
    [dia_semana] labels, as [load_data] leaves them. *)
Definition clave (r : Fila) : option (Z * string) :=
  match campo "hora_num" r, campo "dia_semana" r with
  | Entero h, Texto d => Some (h, d)
  | _, _ => None
  end.

(** Position of a day among the categories. *)
Fixpoint posicion (cats : list string) (d : string) : nat :=
  match cats with
  | [] => 0
  | c :: cats => if String.eqb c d then 0 else S (posicion cats d)
  end.

(** The order of the group keys: by hour, then by the order of the days. *)
Definition antes (a b : Z * string) : Prop :=
  a.1 < b.1 ∨ (a.1 = b.1 ∧ (posicion orden a.2 ≤ posicion orden b.2)%nat).

#[global] Instance antes_dec : RelDecision antes.
Proof. intros a b. unfold antes. apply _. Defined.

(** [groupby([...], observed=True).size().reset_index(name="n")]: one row
    per group that has records, with the number of its records. *)
Definition counts (df_alc : DataFrame) : list (Z * string * nat) :=
  (λ k, (k.1, k.2, length (filter (λ r, clave r = Some k) df_alc)))
    <$> merge_sort antes (unique (omap clave df_alc)).

(** [px.line(counts, x="hora_num", y="n", color="dia_semana")]: one line per
    day found in [counts], through the points of that day. *)
Definition trazas (counts : list (Z * string * nat)) : list (string * list (Z * nat)) :=
  (λ d, (d, omap (λ '(h, d', n), if String.eqb d' d then Some (h, n) else None) counts))
    <$> unique ((λ '(h, d, n), d) <$> counts).

Inductive vista_alcohol : Type :=
  | Info                                            (* st.info: pick a day *)
  | Lineas (ts : list (string * list (Z * nat))).   (* st.plotly_chart *)

Definition fig_alc (df : DataFrame) (dias_sel : list string) : vista_alcohol :=
  match df_alc df dias_sel with
  | [] => Info
  | d => Lineas (trazas (counts d))
  end.

(** ** 3. Severity by vehicle *)

Definition COLOR_MAP_LESIVIDAD : list (string * string) :=
  [("Sin asistencia sanitaria", "LightSeaGreen");
   ("Asistencia sanitaria sólo en el lugar del accidente", "DarkSeaGreen");
   ("Asistencia sanitaria ambulatoria con posterioridad", "GoldenRod");
   ("Atención en urgencias sin posterior ingreso", "SandyBrown");
   ("Ingreso inferior o igual a 24 horas", "Tomato");
   ("Ingreso superior a 24 horas", "FireBrick");
   ("Fallecido 24 horas", "Black");
   ("Se desconoce", "Silver")].

Definition orden_lesividad : list string := COLOR_MAP_LESIVIDAD.*1.

Definition todos_los_vehiculos (df : DataFrame) : list string :=
  sorted (unique (etiquetas "tipo_vehiculo" df)).

Definition df_vul (df : DataFrame) (vehiculos_sel : list string) : DataFrame :=
  filter (λ r, isin vehiculos_sel (campo "tipo_vehiculo" r) = true) df.

(** The values of the colour column that get a trace: those named in
    [category_orders] first, in that order, then the others as they appear. *)
Definition nombres_de_trazas (cats presentes : list string) : list string :=
  filter (λ s, s ∈ presentes) cats ++ filter (λ s, s ∉ cats) (unique presentes).

(** Records of vehicle [v] in the trace of severity [s]. *)
Definition cuenta (v s : string) (df : DataFrame) : nat :=
  length (filter (λ r, igual (campo "tipo_vehiculo" r) (Texto v)
                       && igual (campo "lesividad" r) (Texto s) = true) df).

Definition suma_nat (l : list nat) : nat := foldr Nat.add 0%nat l.

(** [barnorm="percent"]: the bar of a trace at a position, as a share of
    what all the traces stack there. *)
Definition porcentaje (nombres : list string) (v s : string) (df : DataFrame) : Q :=
  (100 * inject_Z (Z.of_nat (cuenta v s df))
   / inject_Z (Z.of_nat (suma_nat ((λ s', cuenta v s' df) <$> nombres))))%Q.

(** [px.histogram(df_vul, y="tipo_vehiculo", color="lesividad",
    barnorm="percent", category_orders={"lesividad": orden_lesividad})]: per
    trace, a bar for each vehicle type that has records in it. *)
Definition fig_vul (df_vul : DataFrame) : list (string * list (string * Q)) :=
  let nombres := nombres_de_trazas orden_lesividad (etiquetas "lesividad" df_vul) in
  (λ s, (s, (λ v, (v, porcentaje nombres v s df_vul))
              <$> filter (λ v, cuenta v s df_vul ≠ 0%nat)
                    (unique (etiquetas "tipo_vehiculo" df_vul))))
    <$> nombres.

(** What the chart column shows: nothing when the selection is empty. *)
Definition vista_vul (df : DataFrame) (vehiculos_sel : list string)
  : option (list (string * list (string * Q))) :=
  match vehiculos_sel with
  | [] => None
  | _ => Some (fig_vul (df_vul df vehiculos_sel))
  end.

(** The bar of vehicle [v] in a trace, nothing where it has none. *)
Definition barra (v : string) (barras : list (string * Q)) : Q :=
  default 0%Q ((list_to_map barras : gmap string Q) !! v).

Definition suma_Q (l : list Q) : Q := foldr Qplus 0%Q l.

(** ** 5. The age pyramid *)

Definition y_age (df : DataFrame) : list string :=
  sorted (unique (etiquetas "rango_edad" df)).

(** [df.groupby(c).size()]: the labels of [c] in order, each with the number
    of its rows. *)
Definition groupby_size (c : string) (df : DataFrame) : list (string * nat) :=
  (λ k, (k, length (filter (λ r, campo c r = Texto k) df)))
    <$> sorted (unique (etiquetas c df)).

(** [Series.reindex(index, fill_value=fill)]. *)
Definition reindex (index : list string) (fill : nat) (s : list (string * nat))
  : list (string * nat) :=
  (λ k, (k, default fill ((list_to_map s : gmap string nat) !! k))) <$> index.

Definition df_m (df : DataFrame) : list (string * nat) :=
  reindex (y_age df) 0
    (groupby_size "rango_edad"
       (filter (λ r, igual (campo "sexo" r) (Texto "Hombre") = true) df)).

Definition df_f (df : DataFrame) : list (string * nat) :=
  reindex (y_age df) 0
    (groupby_size "rango_edad"
       (filter (λ r, igual (campo "sexo" r) (Texto "Mujer") = true) df)).

(** ** Counts the properties speak of *)

(** Records with a positive alcohol test on day [d] at hour [h]. *)
Definition positivos (d : string) (h : Z) (df : DataFrame) : nat :=
  length (filter (λ r, igual (campo "alcohol" r) (Logico true) = true
                       ∧ campo "dia_semana" r = Texto d
                       ∧ campo "hora_num" r = Entero h) df).

(** Records of sex [sexo] in the age bracket [k]. *)
Definition personas (sexo k : string) (df : DataFrame) : nat :=
  length (filter (λ r, campo "rango_edad" r = Texto k
                       ∧ igual (campo "sexo" r) (Texto sexo) = true) df).

(** ** Sample tables *)

Definition fila (l : list (string * valor)) : Fila := list_to_map l.

(** Three rows as [pd.read_csv] hands them over: a Saturday night positive
    with no severity recorded, a Friday record with a time that is no time
    and a severity outside the vocabulary, and a Sunday evening pedestrian. *)
Definition fila_a : Fila :=
  fila [("num_expediente", Texto "2024S000101"); ("fecha", Texto "06/01/2024");
        ("hora", Texto "3:15:00"); ("distrito", Texto "CENTRO");
        ("tipo_vehiculo", Texto "Turismo"); ("tipo_persona", Texto "Conductor");
        ("rango_edad", Texto "Más de 74 años"); ("sexo", Texto "Hombre");
        ("lesividad", NaN); ("coordenada_x_utm", Real 440000);
        ("coordenada_y_utm", Real 4474000); ("positiva_alcohol", Texto "S")].

Definition fila_b : Fila :=
  fila [("num_expediente", Texto "2024S000202"); ("fecha", Texto "15/03/2024");
        ("hora", Texto "mediodía"); ("distrito", Texto "RETIRO");
        ("tipo_vehiculo", Texto "Bicicleta"); ("tipo_persona", Texto "Conductor");
        ("rango_edad", Texto "De 25 a 29 años"); ("sexo", Texto "Mujer");
        ("lesividad", Texto "Grave"); ("coordenada_x_utm", NaN);
        ("coordenada_y_utm", NaN); ("positiva_alcohol", Texto "N")].

Definition fila_c : Fila :=
  fila [("num_expediente", Texto "2024S000303"); ("fecha", Texto "07/01/2024");
        ("hora", Texto "19:40:00"); ("distrito", Texto "CENTRO");
        ("tipo_vehiculo", Texto "Turismo"); ("tipo_persona", Texto "Peatón");
        ("rango_edad", Texto "De 25 a 29 años"); ("sexo", Texto "Mujer");
        ("lesividad", Texto "Ingreso superior a 24 horas");
        ("coordenada_x_utm", Real 441000); ("coordenada_y_utm", Real 4475000);
        ("positiva_alcohol", NaN)].

Definition archivo_ejemplo : DataFrame := [fila_a; fila_b; fila_c].

Definition dia_de (d m y : Z) : valor :=
  Marca {| year := y; month := m; day := d; hour := 0; minute := 0; second := 0 |}.

Definition preparada_a : Fila := fila_preparada transformador_lineal (dia_de 6 1 2024) fila_a.
Definition preparada_b : Fila := fila_preparada transformador_lineal (dia_de 15 3 2024) fila_b.
Definition preparada_c : Fila := fila_preparada transformador_lineal (dia_de 7 1 2024) fila_c.

(** What the loader makes of [archivo_ejemplo]. *)
Definition tabla_ejemplo : DataFrame := [preparada_a; preparada_b; preparada_c].


(** The three rows of the scenario of the spatial view. *)
Definition peaton_grave_19 : Fila :=
  fila [("hora_num", Entero 19); ("tipo_persona", Texto "Peatón");
        ("lesividad", Texto "Ingreso superior a 24 horas");
        ("lon", Real (-3.7038)); ("lat", Real 40.4168)].

Definition conductor_leve_19 : Fila :=
  fila [("hora_num", Entero 19); ("tipo_persona", Texto "Conductor");
        ("lesividad", Texto "Sin asistencia sanitaria");
        ("lon", Real (-3.6921)); ("lat", Real 40.4203)].

Definition peaton_grave_8 : Fila :=
  fila [("hora_num", Entero 8); ("tipo_persona", Texto "Peatón");
        ("lesividad", Texto "Fallecido 24 horas");
        ("lon", Real (-3.7102)); ("lat", Real 40.4051)].

(** ** The headline figures *)

(** [len(df)]. *)
Definition total_personas (df : DataFrame) : nat := length df.

(** How often the label [k] stands in column [c]. *)
Definition veces (c k : string) (df : DataFrame) : nat :=
  length (filter (λ r, campo c r = Texto k) df).

(** [Series.mode()]: the labels that stand most often in the column, in
    sorted order; missing cells are not counted. *)
Definition mode (c : string) (df : DataFrame) : list string :=
  let ks := sorted (unique (etiquetas c df)) in
  filter (λ k, veces c k df = max_list ((λ k, veces c k df) <$> ks)) ks.

(** [df['distrito'].mode()[0]]; nothing where the mode is empty and the
    indexing raises. *)
Definition distrito_top (df : DataFrame) : option string :=
  head (mode "distrito" df).

(** [len(df[df['lesividad'].isin([...])])], with the two labels of
    [graves]. *)
Definition graves_count (df : DataFrame) : nat :=
  length (filter (λ r, isin graves (campo "lesividad" r) = true) df).

(** What puts a record on the map of an hour under a scenario. *)
Definition en_el_mapa (escenario : string) (hora_mapa : Z) (r : Fila) : Prop :=
  igual (campo "hora_num" r) (Entero hora_mapa) = true
  ∧ isna (campo "lat" r) = false ∧ isna (campo "lon" r) = false
  ∧ (escenario = "Sólo graves o mortales" → isin graves (campo "lesividad" r) = true)
  ∧ (escenario = "Sólo atropellos" → campo "tipo_persona" r = Texto "Peatón").

#[global] Instance en_el_mapa_dec escenario hora_mapa r :
  Decision (en_el_mapa escenario hora_mapa r).
Proof. unfold en_el_mapa. apply _. Defined.

(** ** The default of the vehicle selector *)

Definition seleccion_defecto : list string :=
  ["Turismo"; "Motocicleta > 125cc"; "Bicicleta"; "Peatón"; "VMU eléctrico"].

(** [[v for v in seleccion_defecto if v in todos_los_vehiculos]]. *)
Definition vehiculos_por_defecto (df : DataFrame) : list string :=
  filter (λ v, v ∈ todos_los_vehiculos df) seleccion_defecto.

(** ** 4. Sex and role *)

Definition df_sex (df : DataFrame) : DataFrame :=
  filter (λ r, isin ["Hombre"; "Mujer"] (campo "sexo" r) = true) df.

(** Records at position [x] of column [cx] in the trace [s] of the colour
    column [cc]. *)
Definition cuenta_en (cx cc x s : string) (df : DataFrame) : nat :=
  length (filter (λ r, igual (campo cx r) (Texto x)
                       && igual (campo cc r) (Texto s) = true) df).

Definition porcentaje_en (cx cc : string) (nombres : list string) (x s : string)
    (df : DataFrame) : Q :=
  (100 * inject_Z (Z.of_nat (cuenta_en cx cc x s df))
   / inject_Z (Z.of_nat (suma_nat ((λ s', cuenta_en cx cc x s' df) <$> nombres))))%Q.

(** [px.histogram(df, x=cx, color=cc, barnorm="percent",
    category_orders={cc: cats})]: per trace, a bar at each position that has
    records in it. *)
Definition histograma_percent (cx cc : string) (cats : list string) (df : DataFrame)
  : list (string * list (string * Q)) :=
  let nombres := nombres_de_trazas cats (etiquetas cc df) in
  (λ s, (s, (λ x, (x, porcentaje_en cx cc nombres x s df))
              <$> filter (λ x, cuenta_en cx cc x s df ≠ 0%nat)
                    (unique (etiquetas cx df))))
    <$> nombres.

(** [fig_generos]: no [category_orders], the roles come as they appear. *)
Definition fig_generos (df_sex : DataFrame) : list (string * list (string * Q)) :=
  histograma_percent "sexo" "tipo_persona" [] df_sex.

Definition graves_hospital : list string :=
  ["Ingreso superior a 24 horas"; "Ingreso inferior o igual a 24 horas";
   "Fallecido 24 horas"].

Definition df_graves (df_sex : DataFrame) : DataFrame :=
  filter (λ r, isin graves_hospital (campo "lesividad" r) = true) df_sex.

(** [px.pie(df_graves, names="sexo")]: one slice per sex found, as large as
    the number of its records. *)
Definition fig_pie (df_graves : DataFrame) : list (string * nat) :=
  (λ k, (k, veces "sexo" k df_graves)) <$> unique (etiquetas "sexo" df_graves).

(** ** Times as the format writes them *)

Definition cifra (n : Z) : ascii := ascii_of_N (Z.to_N (48 + n)).

Definition dos_cifras (n : Z) : string :=
  String (cifra (n / 10)) (String (cifra (n mod 10)) EmptyString).

(** [HH:MM:SS], what [strftime("%H:%M:%S")] writes. *)
Definition hora_texto (h m s : Z) : string :=
  dos_cifras h ++ ":" ++ dos_cifras m ++ ":" ++ dos_cifras s.

(** [H:MM:SS], an hour before ten written without its zero. *)
Definition hora_texto_corta (h m s : Z) : string :=
  String (cifra h) (":" ++ dos_cifras m ++ ":" ++ dos_cifras s).

(** * Properties *)

(** ** Column assignments that may raise *)


Lemma asigna_o_Listo c f (df df' : DataFrame) :
  asigna_o c f df = Listo df' →
  Forall2 (λ r r', ∃ v, f r = Listo v ∧ r' = <[c := v]> r) df df'.
Proof.
  revert df'. induction df as [|r df IH]; intros df' H; simpl in H.
  - injection H as <-. constructor.
  - destruct (f r) as [v| |] eqn:Hv; simpl in H; try discriminate.
    destruct (asigna_o c f df) as [d| |]; simpl in H; try discriminate.
    injection H as <-. constructor; eauto.
Qed.





(** ** The loader, row by row *)

Section Carga_propiedades.

Variable analiza_fecha : valor → option Timestamp.
Variable transformer : valor → valor → valor * valor.

Lemma prepara_Listo (df df' : DataFrame) :
  prepara analiza_fecha transformer df = Listo df' → Forall2 (prepara_fila analiza_fecha transformer) df df'.
Proof.
  unfold prepara. intros H.
  destruct (asigna_o "fecha" _ df) as [d| |] eqn:Hd; simpl in H; try discriminate.
  injection H as <-. apply asigna_o_Listo in Hd.
  unfold asigna. rewrite <- !list_fmap_compose.
  apply Forall2_fmap_r. eapply Forall2_impl; [exact Hd|].
  intros r r' (v & Hv & ->). exists v. split; [done|]. reflexivity.
Qed.

Lemma asigna_o_Forall2 c f (df : DataFrame) (vs : list valor) :
  Forall2 (λ r v, f r = Listo v) df vs →
  asigna_o c f df = Listo (zip_with (λ v r, <[c := v]> r) vs df).
Proof.
  induction 1 as [|r v df vs Hv _ IH]; simpl; [done|]. by rewrite Hv, IH.
Qed.

(** The table [prepara] returns, given the parsed dates of the rows. *)
Lemma prepara_filas (df : DataFrame) (ts : list valor) :
  Forall2 (λ r t, to_datetime_dayfirst analiza_fecha (campo "fecha" r) = Listo t) df ts →
  prepara analiza_fecha transformer df
  = Listo (zip_with (fila_preparada transformer) ts df).
Proof.
  intros H. unfold prepara.
  rewrite (asigna_o_Forall2 "fecha" _ df ts H). simpl.
  unfold asigna. rewrite <- !list_fmap_compose. f_equal.
  clear H. revert ts. induction df as [|r df IH]; intros [|t ts]; simpl; try done.
  by rewrite IH.
Qed.


Ltac campos :=
  unfold fila_preparada, campo; cbn zeta;
  repeat (rewrite lookup_insert_eq || (rewrite lookup_insert_ne by done)).

Lemma fila_preparada_fecha t r : campo "fecha" (fila_preparada transformer t r) = t.
Proof. campos. done. Qed.

Lemma fila_preparada_hora_dt t r :
  campo "hora_dt" (fila_preparada transformer t r) = to_datetime_HMS (campo "hora" r).
Proof. campos. done. Qed.

Lemma fila_preparada_hora_num t r :
  campo "hora_num" (fila_preparada transformer t r) = dt_hour (to_datetime_HMS (campo "hora" r)).
Proof. campos. done. Qed.

Lemma fila_preparada_dia_semana t r :
  campo "dia_semana" (fila_preparada transformer t r)
  = Categorical orden (map_dict dias_map (dt_day_name t)).
Proof. campos. done. Qed.


Lemma fila_preparada_alcohol t r :
  campo "alcohol" (fila_preparada transformer t r)
  = Logico (igual (campo "positiva_alcohol" r) (Texto "S")).
Proof. campos. done. Qed.

Lemma fila_preparada_rango_edad t r :
  campo "rango_edad" (fila_preparada transformer t r)
  = replace "Más de 74 años" "> 74" (campo "rango_edad" r).
Proof. campos. done. Qed.

Lemma fila_preparada_lesividad t r :
  campo "lesividad" (fila_preparada transformer t r)
  = fillna (Texto "Se desconoce") (campo "lesividad" r).
Proof. campos. done. Qed.

Lemma fila_preparada_resto t r c :
  c ∉ columnas_escritas → fila_preparada transformer t r !! c = r !! c.
Proof.
  intros Hc. unfold fila_preparada; cbn zeta.
  repeat (rewrite lookup_insert_ne; [|intros <-; apply Hc; set_solver]).
  done.
Qed.

End Carga_propiedades.

(** ** Comparisons and the time format *)

Lemma igual_Texto v s : igual v (Texto s) = true ↔ v = Texto s.
Proof.
  destruct v; simpl; try (split; [discriminate|congruence]).
  rewrite String.eqb_eq. split; congruence.
Qed.

Lemma igual_Entero_Entero a b : igual (Entero a) (Entero b) = true ↔ a = b.
Proof.
  simpl. rewrite Qeq_bool_iff. unfold Qeq. simpl. lia.
Qed.








(** ** The loader as a whole *)

Section Carga_teoremas.

Variable analiza_fecha : valor → option Timestamp.
Variable transformer : valor → valor → valor * valor.

Lemma load_data_filas principal secundario (crudo df : DataFrame) :
  data_path principal secundario = Some crudo →
  load_data analiza_fecha transformer principal secundario = Listo df →
  Forall2 (prepara_fila analiza_fecha transformer) crudo df.
Proof.
  unfold load_data. intros ->. apply prepara_Listo.
Qed.

Lemma load_data_fila principal secundario (crudo df : DataFrame) i r r' :
  data_path principal secundario = Some crudo →
  load_data analiza_fecha transformer principal secundario = Listo df →
  crudo !! i = Some r → df !! i = Some r' →
  prepara_fila analiza_fecha transformer r r'.
Proof.
  intros Hp Hl Hr Hr'.
  eapply Forall2_lookup_lr; [by eapply load_data_filas|done..].
Qed.

(** Every record of the returned table carries a severity label, when the
    severity column of the file holds labels or nothing. *)
Lemma load_data_lesividad_texto principal secundario (crudo df : DataFrame) :
  data_path principal secundario = Some crudo →
  load_data analiza_fecha transformer principal secundario = Listo df →
  (∀ r, r ∈ crudo → isna (campo "lesividad" r) = true
                     ∨ ∃ s, campo "lesividad" r = Texto s) →
  ∀ r', r' ∈ df → ∃ s, campo "lesividad" r' = Texto s.
Proof.
  intros Hp Hl Hc r' [i Hi]%list_elem_of_lookup.
  pose proof (load_data_filas _ _ _ _ Hp Hl) as HF.
  destruct (Forall2_lookup_r _ _ _ _ _ HF Hi) as (r & Hr & t & _ & ->).
  rewrite fila_preparada_lesividad. unfold fillna.
  destruct (Hc r) as [->|[s Hs]]; [by eapply list_elem_of_lookup_2|eauto|].
  rewrite Hs. simpl. eauto.
Qed.

(** C6. Severity normalization: in every row of the table the loader
    returns, a record whose severity is missing holds the literal
    'Se desconoce', and a record whose severity is not missing holds the
    severity value of the input row unchanged. *)
Theorem C6_lesividad_fillna principal secundario (crudo df : DataFrame) i r r' :
  data_path principal secundario = Some crudo →
  load_data analiza_fecha transformer principal secundario = Listo df →
  crudo !! i = Some r → df !! i = Some r' →
  (isna (campo "lesividad" r) = true → campo "lesividad" r' = Texto "Se desconoce")
  ∧ (isna (campo "lesividad" r) = false → campo "lesividad" r' = campo "lesividad" r).
Proof.
  intros Hp Hl Hr Hr'.
  destruct (load_data_fila _ _ _ _ _ _ _ Hp Hl Hr Hr') as (t & _ & ->).
  rewrite fila_preparada_lesividad. unfold fillna.
  split; intros ->; done.
Qed.

(** C7. Alcohol flag: in every row of the table the loader returns, the
    derived flag [alcohol] is a boolean that is true exactly when the raw
    [positiva_alcohol] cell is the text 'S'; every other value, a missing
    one included, gives false. *)
Theorem C7_alcohol_flag principal secundario (crudo df : DataFrame) i r r' :
  data_path principal secundario = Some crudo →
  load_data analiza_fecha transformer principal secundario = Listo df →
  crudo !! i = Some r → df !! i = Some r' →
  ∃ b, campo "alcohol" r' = Logico b
       ∧ (b = true ↔ campo "positiva_alcohol" r = Texto "S")
       ∧ (isna (campo "positiva_alcohol" r) = true → b = false).
Proof.
  intros Hp Hl Hr Hr'.
  destruct (load_data_fila _ _ _ _ _ _ _ Hp Hl Hr Hr') as (t & _ & ->).
  rewrite fila_preparada_alcohol. eexists. split; [done|]. split.
  - apply igual_Texto.
  - by destruct (campo "positiva_alcohol" r).
Qed.


(** C9 (as amended). Rows and frame: the table the loader returns has
    exactly one row per row of the input, in the same order; in each row
    the date column holds the parsed day-first date of the input row's
    date, and every column other than the ones the loader writes ([fecha],
    [hora_dt], [hora_num], [dia_semana], [lon], [lat], [alcohol],
    [rango_edad], [lesividad]) holds what the input row holds. *)
Theorem C9_filas_y_marco principal secundario (crudo df : DataFrame) :
  data_path principal secundario = Some crudo →
  load_data analiza_fecha transformer principal secundario = Listo df →
  length df = length crudo
  ∧ ∀ i r, crudo !! i = Some r →
      ∃ r', df !! i = Some r'
            ∧ to_datetime_dayfirst analiza_fecha (campo "fecha" r)
              = Listo (campo "fecha" r')
            ∧ ∀ c, c ∉ columnas_escritas → r' !! c = r !! c.
Proof.
  intros Hp Hl. pose proof (load_data_filas _ _ _ _ Hp Hl) as HF.
  split; [symmetry; by eapply Forall2_length|].
  intros i r Hr.
  destruct (Forall2_lookup_l _ _ _ _ _ HF Hr) as (r' & Hr' & t & Ht & ->).
  exists (fila_preparada transformer t r). split; [done|]. split.
  - by rewrite fila_preparada_fecha.
  - intros c Hc. by apply fila_preparada_resto.
Qed.


End Carga_teoremas.

(** ** Lists: [unique], [sorted] and lookups in series *)

Lemma elem_of_unique {A} `{EqDecision A} (l : list A) x : x ∈ unique l ↔ x ∈ l.
Proof.
  induction l as [|y l IH]; simpl; [done|].
  rewrite !elem_of_cons, list_elem_of_filter, IH.
  destruct (decide (x = y)) as [->|Hne]; [by split; left|].
  split; [intros [?|[_ ?]]; auto|intros [?|?]; auto].
Qed.

Lemma NoDup_unique {A} `{EqDecision A} (l : list A) : NoDup (unique l).
Proof.
  induction l as [|y l IH]; simpl; [constructor|].
  constructor.
  - rewrite list_elem_of_filter. by intros [? _].
  - by apply NoDup_filter.
Qed.

Lemma elem_of_sorted l x : x ∈ sorted l ↔ x ∈ l.
Proof. unfold sorted. by rewrite merge_sort_Permutation. Qed.

Lemma NoDup_sorted l : NoDup l → NoDup (sorted l).
Proof. unfold sorted. by rewrite merge_sort_Permutation. Qed.

Lemma StronglySorted_sorted l : StronglySorted String.le (sorted l).
Proof. unfold sorted. apply StronglySorted_merge_sort; apply _. Qed.

Lemma elem_of_etiquetas c (df : DataFrame) s :
  s ∈ etiquetas c df ↔ ∃ r, r ∈ df ∧ campo c r = Texto s.
Proof.
  unfold etiquetas. rewrite list_elem_of_omap.
  split; intros (r & Hr & H); exists r; (split; [done|]).
  - destruct (campo c r); congruence.
  - by rewrite H.
Qed.

(** A series built by tabulating [f] over its index reads [f k] at every
    label [k] of the index and nothing elsewhere. *)
Lemma lookup_tabla {B} (f : string → B) (l : list string) k :
  (list_to_map ((λ k, (k, f k)) <$> l) : gmap string B) !! k
  = if decide (k ∈ l) then Some (f k) else None.
Proof.
  induction l as [|x l IH]; [done|].
  rewrite fmap_cons, list_to_map_cons, lookup_insert.
  destruct (decide (x = k)) as [->|Hne].
  - rewrite decide_True; [done|left].
  - rewrite IH. destruct (decide (k ∈ l)) as [Hin|Hin].
    + rewrite decide_True; [done|by right].
    + rewrite decide_False; [done|].
      rewrite elem_of_cons. intros [?|?]; congruence.
Qed.

Lemma filter_length_0 {A} (P : A → Prop) `{∀ x, Decision (P x)} (l : list A) :
  (∀ x, x ∈ l → ¬ P x) → length (filter P l) = 0%nat.
Proof.
  intros Hn. destruct (filter P l) as [|x l'] eqn:E; [done|].
  assert (x ∈ filter P l) as [HP Hx]%list_elem_of_filter by (rewrite E; left).
  by destruct (Hn x Hx).
Qed.

Lemma filter_length_pos {A} (P : A → Prop) `{∀ x, Decision (P x)} (l : list A) x :
  x ∈ l → P x → length (filter P l) ≠ 0%nat.
Proof.
  intros Hx HP Hl. apply length_zero_iff_nil in Hl.
  assert (x ∈ filter P l) as Hin by by apply list_elem_of_filter.
  rewrite Hl in Hin. by apply elem_of_nil in Hin.
Qed.

Lemma filter_length_ext {A} (P Q : A → Prop)
    `{∀ x, Decision (P x)} `{∀ x, Decision (Q x)} (l : list A) :
  (∀ x, x ∈ l → P x ↔ Q x) → length (filter P l) = length (filter Q l).
Proof.
  intros Hpq. f_equal. induction l as [|x l IH]; [done|].
  rewrite !filter_cons.
  assert (P x ↔ Q x) as Hx by (apply Hpq; left).
  rewrite IH by (intros; apply Hpq; by right).
  destruct (decide (P x)), (decide (Q x)); tauto.
Qed.

(** ** 1. The spatial density view *)

Lemma elem_of_dropna subset (df : DataFrame) r :
  r ∈ dropna subset df ↔ r ∈ df ∧ ∀ c, c ∈ subset → isna (campo c r) = false.
Proof.
  unfold dropna. rewrite list_elem_of_filter, forallb_forall.
  split; intros [H1 H2]; split; try done.
  - intros c Hc. apply list_elem_of_In in Hc. specialize (H1 c Hc).
    unfold notna in H1. by apply negb_true_iff in H1.
  - intros c Hc. apply list_elem_of_In in Hc. unfold notna.
    apply negb_true_iff. by apply H2.
Qed.

Lemma elem_of_df_map (df : DataFrame) escenario hora_mapa r :
  r ∈ df_map df escenario hora_mapa →
  r ∈ df ∧ igual (campo "hora_num" r) (Entero hora_mapa) = true
  ∧ isna (campo "lat" r) = false ∧ isna (campo "lon" r) = false.
Proof.
  assert (∀ r, r ∈ dropna ["lat"; "lon"]
                 (filter (λ r, igual (campo "hora_num" r) (Entero hora_mapa) = true) df) →
           r ∈ df ∧ igual (campo "hora_num" r) (Entero hora_mapa) = true
           ∧ isna (campo "lat" r) = false ∧ isna (campo "lon" r) = false) as Hbase.
  { intros r0 [[? ?]%list_elem_of_filter Hc]%elem_of_dropna.
    split_and!; try done; apply Hc; [left|right; left]. }
  unfold df_map.
  destruct (String.eqb escenario _); [|destruct (String.eqb escenario _)].
  - intros [_ ?]%list_elem_of_filter. by apply Hbase.
  - intros [_ ?]%list_elem_of_filter. by apply Hbase.
  - apply Hbase.
Qed.

(** C10. Every point the spatial view returns is the position of a record
    of the table whose hour of day equals the selected hour and whose
    latitude and longitude are both present; a record whose hour of day is
    missing is in the view for no choice of hour and scenario. *)
Theorem C10_puntos_de_la_hora (df : DataFrame) (escenario : string) (hora_mapa : Z) :
  (∀ p, p ∈ posiciones (df_map df escenario hora_mapa) →
     ∃ r, r ∈ df ∧ p = (campo "lon" r, campo "lat" r)
          ∧ igual (campo "hora_num" r) (Entero hora_mapa) = true
          ∧ (∀ z, campo "hora_num" r = Entero z → z = hora_mapa)
          ∧ isna (campo "lat" r) = false ∧ isna (campo "lon" r) = false)
  ∧ (∀ r, isna (campo "hora_num" r) = true → r ∉ df_map df escenario hora_mapa).
Proof.
  split.
  - intros p (r & -> & Hr)%list_elem_of_fmap.
    apply elem_of_df_map in Hr as (? & Hh & ? & ?).
    exists r. split_and!; try done.
    intros z Hz. rewrite Hz in Hh. by apply igual_Entero_Entero in Hh.
  - intros r Hna Hr. apply elem_of_df_map in Hr as (_ & Hh & _).
    destruct (campo "hora_num" r); discriminate.
Qed.

(** C1. The scenario of the specification: on a table of exactly three
    rows, a pedestrian with a severe injury at hour 19, a driver without a
    severe injury at hour 19 and a pedestrian with a severe injury at hour
    8, all with coordinates, the spatial view for hour 19 and the scenario
    'Sólo graves o mortales' keeps exactly the first row and returns its
    position as the only point. *)
Theorem C1_escenario_graves_19 (r1 r2 r3 : Fila) :
  campo "hora_num" r1 = Entero 19 → campo "tipo_persona" r1 = Texto "Peatón" →
  isin graves (campo "lesividad" r1) = true →
  campo "hora_num" r2 = Entero 19 → campo "tipo_persona" r2 = Texto "Conductor" →
  isin graves (campo "lesividad" r2) = false →
  campo "hora_num" r3 = Entero 8 → campo "tipo_persona" r3 = Texto "Peatón" →
  isin graves (campo "lesividad" r3) = true →
  (∀ r, r ∈ [r1; r2; r3] → isna (campo "lat" r) = false ∧ isna (campo "lon" r) = false) →
  df_map [r1; r2; r3] "Sólo graves o mortales" 19 = [r1]
  ∧ mapa [r1; r2; r3] "Sólo graves o mortales" 19
    = Hexagonos [(campo "lon" r1, campo "lat" r1)].
Proof.
  intros H1 _ G1 H2 _ G2 H3 _ _ Hc.
  assert (df_map [r1; r2; r3] "Sólo graves o mortales" 19 = [r1]) as E.
  { unfold df_map, dropna.
    assert (∀ r, r ∈ [r1; r2; r3] →
              forallb (λ c, notna (campo c r)) ["lat"; "lon"] = true) as Hf.
    { intros r [Hlat Hlon]%Hc. simpl. unfold notna. by rewrite Hlat, Hlon. }
    change (String.eqb "Sólo graves o mortales" "Sólo graves o mortales")
      with true. cbv iota.
    rewrite (filter_cons_True _ r1) by by rewrite H1.
    rewrite (filter_cons_True _ r2) by by rewrite H2.
    rewrite (filter_cons_False _ r3) by by rewrite H3.
    rewrite filter_nil.
    rewrite (filter_cons_True _ r1) by (apply Hf; left).
    rewrite (filter_cons_True _ r2) by (apply Hf; right; left).
    rewrite filter_nil.
    rewrite (filter_cons_True _ r1) by done.
    rewrite (filter_cons_False _ r2) by by rewrite G2.
    by rewrite filter_nil. }
  split; [done|]. unfold mapa. by rewrite E.
Qed.

(** ** 5. The age pyramid *)

Lemma reindex_index index fill s : (reindex index fill s).*1 = index.
Proof.
  unfold reindex. rewrite <- list_fmap_compose. apply list_fmap_id.
Qed.

Lemma elem_of_reindex index fill s k n :
  (k, n) ∈ reindex index fill s
  ↔ k ∈ index ∧ n = default fill ((list_to_map s : gmap string nat) !! k).
Proof.
  unfold reindex. rewrite list_elem_of_fmap. split.
  - intros (k' & [= -> ->] & Hk). done.
  - intros [Hk ->]. by exists k.
Qed.

(** The size of a group read back from [groupby(c).size()], with 0 for a
    label that has no group. *)
Lemma groupby_size_lookup c (df : DataFrame) k :
  default 0%nat ((list_to_map (groupby_size c df) : gmap string nat) !! k)
  = length (filter (λ r, campo c r = Texto k) df).
Proof.
  unfold groupby_size. rewrite lookup_tabla.
  destruct (decide (k ∈ sorted (unique (etiquetas c df)))) as [Hk|Hk]; [done|].
  simpl. symmetry. apply filter_length_0. intros r Hr Hc. apply Hk.
  rewrite elem_of_sorted, elem_of_unique, elem_of_etiquetas. eauto.
Qed.

Lemma df_sexo_cuenta sexo (df : DataFrame) k n :
  (k, n) ∈ reindex (y_age df) 0
             (groupby_size "rango_edad"
                (filter (λ r, igual (campo "sexo" r) (Texto sexo) = true) df))
  ↔ k ∈ y_age df ∧ n = personas sexo k df.
Proof.
  rewrite elem_of_reindex, groupby_size_lookup, list_filter_filter. done.
Qed.

Lemma elem_of_y_age (df : DataFrame) k :
  k ∈ y_age df ↔ ∃ r, r ∈ df ∧ campo "rango_edad" r = Texto k.
Proof.
  unfold y_age. by rewrite elem_of_sorted, elem_of_unique, elem_of_etiquetas.
Qed.

(** C5. The age pyramid: the two count series, of men and of women, have
    the same index, the sorted duplicate-free list of the age brackets seen
    in the whole table; at every bracket of that index each series holds
    the number of records of its sex in the bracket, so a bracket with no
    record of a sex is present in the series of that sex with count 0. *)
Theorem C5_piramide_alineada (df : DataFrame) :
  (df_m df).*1 = y_age df ∧ (df_f df).*1 = y_age df
  ∧ StronglySorted String.le (y_age df) ∧ NoDup (y_age df)
  ∧ (∀ k, k ∈ y_age df ↔ ∃ r, r ∈ df ∧ campo "rango_edad" r = Texto k)
  ∧ (∀ k n, (k, n) ∈ df_m df ↔ k ∈ y_age df ∧ n = personas "Hombre" k df)
  ∧ (∀ k n, (k, n) ∈ df_f df ↔ k ∈ y_age df ∧ n = personas "Mujer" k df)
  ∧ (∀ k, k ∈ y_age df → personas "Hombre" k df = 0%nat → (k, 0%nat) ∈ df_m df)
  ∧ (∀ k, k ∈ y_age df → personas "Mujer" k df = 0%nat → (k, 0%nat) ∈ df_f df).
Proof.
  split_and!.
  - apply reindex_index.
  - apply reindex_index.
  - apply StronglySorted_sorted.
  - apply NoDup_sorted, NoDup_unique.
  - apply elem_of_y_age.
  - intros k n. apply df_sexo_cuenta.
  - intros k n. apply df_sexo_cuenta.
  - intros k Hk H0. apply df_sexo_cuenta. by rewrite H0.
  - intros k Hk H0. apply df_sexo_cuenta. by rewrite H0.
Qed.

(** ** 2. Alcohol at the weekend *)

Lemma elem_of_df_alc (df : DataFrame) dias_sel r :
  r ∈ df_alc df dias_sel
  ↔ r ∈ df ∧ igual (campo "alcohol" r) (Logico true) = true
    ∧ isin dias_sel (campo "dia_semana" r) = true.
Proof.
  unfold df_alc. rewrite list_elem_of_filter, andb_true_iff. tauto.
Qed.

Lemma isin_Texto values s : isin values (Texto s) = true ↔ s ∈ values.
Proof. simpl. apply bool_decide_eq_true. Qed.

Lemma clave_Some r h d :
  clave r = Some (h, d) ↔ campo "hora_num" r = Entero h ∧ campo "dia_semana" r = Texto d.
Proof.
  unfold clave.
  destruct (campo "hora_num" r), (campo "dia_semana" r);
    split; try discriminate; try (intros [? ?]; discriminate).
  - by intros [= -> ->].
  - by intros [[= ->] [= ->]].
Qed.

Lemma elem_of_counts (dfa : DataFrame) h d n :
  (h, d, n) ∈ counts dfa
  ↔ (∃ r, r ∈ dfa ∧ clave r = Some (h, d))
    ∧ n = length (filter (λ r, clave r = Some (h, d)) dfa).
Proof.
  unfold counts. rewrite list_elem_of_fmap. split.
  - intros ([h' d'] & [= -> -> ->] & Hk). simpl. split; [|done].
    rewrite merge_sort_Permutation, elem_of_unique, list_elem_of_omap in Hk.
    done.
  - intros [Hr ->]. exists (h, d). split; [done|].
    by rewrite merge_sort_Permutation, elem_of_unique, list_elem_of_omap.
Qed.

Lemma trazas_dias cs : (trazas cs).*1 = unique ((λ '(h, d, n), d) <$> cs).
Proof.
  unfold trazas. rewrite <- list_fmap_compose. apply list_fmap_id.
Qed.

Lemma elem_of_trazas_dias cs d :
  d ∈ (trazas cs).*1 ↔ ∃ h n, (h, d, n) ∈ cs.
Proof.
  rewrite trazas_dias, elem_of_unique, list_elem_of_fmap. split.
  - intros ([[h d'] n] & -> & H). eauto.
  - intros (h & n & H). by exists (h, d, n).
Qed.

Lemma elem_of_trazas cs d pts h n :
  (d, pts) ∈ trazas cs → (h, n) ∈ pts ↔ (h, d, n) ∈ cs.
Proof.
  unfold trazas. intros (d' & [= -> ->] & _)%list_elem_of_fmap.
  rewrite list_elem_of_omap. split.
  - intros ([[h' d''] n'] & Hin & Heq).
    destruct (String.eqb d'' d') eqn:E; [|discriminate].
    apply String.eqb_eq in E as ->. by injection Heq as -> ->.
  - intros Hin. exists (h, d', n). split; [done|]. by rewrite String.eqb_refl.
Qed.

(** The size of a group of [df_alc] counted on the whole table. *)
Lemma grupo_positivos (df : DataFrame) dias_sel h d :
  d ∈ dias_sel →
  length (filter (λ r, clave r = Some (h, d)) (df_alc df dias_sel)) = positivos d h df.
Proof.
  intros Hd. unfold df_alc, positivos. rewrite list_filter_filter.
  apply filter_length_ext. intros r _.
  rewrite clave_Some, andb_true_iff. split.
  - intros [[? ?] [? ?]]. done.
  - intros (? & Hdia & ?). split_and!; try done. rewrite Hdia. by apply isin_Texto.
Qed.

Lemma positivos_no_cero (df : DataFrame) dias_sel h d :
  d ∈ dias_sel →
  positivos d h df ≠ 0%nat ↔ ∃ r, r ∈ df_alc df dias_sel ∧ clave r = Some (h, d).
Proof.
  intros Hd. rewrite <- (grupo_positivos df dias_sel h d Hd). split.
  - intros Hn.
    destruct (filter (λ r, clave r = Some (h, d)) (df_alc df dias_sel))
      as [|r l] eqn:E; [done|].
    assert (r ∈ filter (λ r, clave r = Some (h, d)) (df_alc df dias_sel)) as Hr
      by (rewrite E; left).
    apply list_elem_of_filter in Hr as [? ?]. eauto.
  - intros (r & Hr & Hc). by eapply filter_length_pos.
Qed.

Lemma df_alc_nil (df : DataFrame) : df_alc df [] = [].
Proof.
  unfold df_alc. induction df as [|r df IH]; [done|].
  rewrite filter_cons_False; [done|].
  rewrite andb_true_iff. intros [_ H].
  destruct (campo "dia_semana" r); discriminate.
Qed.

(** C3 (as amended). The alcohol view: an empty selection of days gives the
    explicit empty result, and so does every selection that no record
    matches; otherwise the view draws one line per selected day that has at
    least one alcohol-positive record with a known hour, and no line for a
    selected day without such records; the line of a day holds, for each
    hour at which that day has such records and for no other hour, the
    number of those records. *)
Theorem C3_lineas_de_dias_con_positivos (df : DataFrame) (dias_sel : list string) :
  fig_alc df [] = Info
  ∧ (fig_alc df dias_sel = Info
     ↔ ∀ r, r ∈ df → ¬ (igual (campo "alcohol" r) (Logico true) = true
                         ∧ isin dias_sel (campo "dia_semana" r) = true))
  ∧ ∀ ts, fig_alc df dias_sel = Lineas ts →
      NoDup ts.*1
      ∧ (∀ d, d ∈ ts.*1 ↔ d ∈ dias_sel ∧ ∃ h, positivos d h df ≠ 0%nat)
      ∧ (∀ d pts h n, (d, pts) ∈ ts →
           (h, n) ∈ pts ↔ n ≠ 0%nat ∧ n = positivos d h df).
Proof.
  split_and!.
  - unfold fig_alc. by rewrite df_alc_nil.
  - unfold fig_alc. split.
    + intros H r Hr [Ha Hd].
      assert (r ∈ df_alc df dias_sel) as Hin by by apply elem_of_df_alc.
      destruct (df_alc df dias_sel); [by apply elem_of_nil in Hin|discriminate].
    + intros H. destruct (df_alc df dias_sel) as [|r l] eqn:E; [done|].
      assert (r ∈ df_alc df dias_sel) as Hin by (rewrite E; left).
      apply elem_of_df_alc in Hin as (Hr & Ha & Hd). by destruct (H r Hr).
  - intros ts Hts.
    assert (ts = trazas (counts (df_alc df dias_sel))) as ->.
    { unfold fig_alc in Hts. destruct (df_alc df dias_sel); [discriminate|].
      by injection Hts as <-. }
    assert (∀ d, d ∈ (trazas (counts (df_alc df dias_sel))).*1
                 ↔ d ∈ dias_sel ∧ ∃ h, positivos d h df ≠ 0%nat) as Hdias.
    { intros d. rewrite elem_of_trazas_dias. split.
      - intros (h & n & [(r & Hr & Hc) _]%elem_of_counts).
        assert (d ∈ dias_sel) as Hd.
        { apply elem_of_df_alc in Hr as (_ & _ & Hi).
          apply clave_Some in Hc as [_ Hdia]. rewrite Hdia in Hi.
          by apply isin_Texto. }
        split; [done|]. exists h. apply (positivos_no_cero df dias_sel); eauto.
      - intros (Hd & h & Hn).
        apply (positivos_no_cero df dias_sel h d Hd) in Hn.
        exists h, (length (filter (λ r, clave r = Some (h, d)) (df_alc df dias_sel))).
        by apply elem_of_counts. }
    split_and!.
    + rewrite trazas_dias. apply NoDup_unique.
    + done.
    + intros d pts h n Hpts.
      assert (d ∈ dias_sel) as Hd.
      { apply Hdias. apply list_elem_of_fmap. by exists (d, pts). }
      rewrite (elem_of_trazas _ _ _ _ _ Hpts), elem_of_counts.
      rewrite (grupo_positivos df dias_sel h d Hd).
      rewrite <- (positivos_no_cero df dias_sel h d Hd).
      split; intros [? ->]; done.
Qed.

(** ** 3. Severity by vehicle *)

Lemma elem_of_df_vul (df : DataFrame) vehiculos_sel r :
  r ∈ df_vul df vehiculos_sel
  ↔ r ∈ df ∧ ∃ w, w ∈ vehiculos_sel ∧ campo "tipo_vehiculo" r = Texto w.
Proof.
  unfold df_vul. rewrite list_elem_of_filter. split.
  - intros [Hi Hr]. split; [done|].
    destruct (campo "tipo_vehiculo" r) as [|w| | | |]; try discriminate.
    exists w. split; [|done]. by apply isin_Texto.
  - intros [Hr (w & Hw & ->)]. split; [|done]. by apply isin_Texto.
Qed.

Lemma elem_of_nombres_de_trazas cats presentes s :
  s ∈ nombres_de_trazas cats presentes ↔ s ∈ presentes.
Proof.
  unfold nombres_de_trazas.
  rewrite elem_of_app, !list_elem_of_filter, elem_of_unique.
  destruct (decide (s ∈ cats)); tauto.
Qed.

Lemma cuenta_no_cero v s (df : DataFrame) :
  cuenta v s df ≠ 0%nat
  ↔ ∃ r, r ∈ df ∧ campo "tipo_vehiculo" r = Texto v ∧ campo "lesividad" r = Texto s.
Proof.
  unfold cuenta. split.
  - intros Hn.
    destruct (filter _ df) as [|r l] eqn:E; [done|].
    assert (r ∈ r :: l) as Hr by left. rewrite <- E in Hr.
    apply list_elem_of_filter in Hr as [[Hv Hs]%andb_true_iff Hr].
    apply igual_Texto in Hv, Hs. eauto.
  - intros (r & Hr & Hv & Hs). eapply filter_length_pos; [done|].
    simpl. rewrite Hv, Hs. simpl. by rewrite !String.eqb_refl.
Qed.

Lemma barra_tabla (g : string → Q) (l : list string) v :
  barra v ((λ v, (v, g v)) <$> l) = if decide (v ∈ l) then g v else 0%Q.
Proof.
  unfold barra. rewrite lookup_tabla. by destruct (decide (v ∈ l)).
Qed.

Lemma suma_nat_no_cero {A} (f : A → nat) (l : list A) x :
  x ∈ l → f x ≠ 0%nat → suma_nat (f <$> l) ≠ 0%nat.
Proof.
  unfold suma_nat. induction 1 as [x l|x y l Hin IH]; rewrite fmap_cons; intros Hx.
  - simpl. lia.
  - specialize (IH Hx). cbn [foldr]. lia.
Qed.

Lemma suma_Q_partes {A} (f : A → nat) (g : A → Q) (t : Q) (l : list A) :
  (∀ x, g x == 100 * inject_Z (Z.of_nat (f x)) / t)%Q →
  (suma_Q (g <$> l) == 100 * inject_Z (Z.of_nat (suma_nat (f <$> l))) / t)%Q.
Proof.
  intros Hg. unfold suma_Q, suma_nat. induction l as [|x l IH].
  - simpl. unfold Qdiv. ring.
  - rewrite !fmap_cons. cbn [foldr].
    rewrite IH, Hg, Nat2Z.inj_add, inject_Z_plus. unfold Qdiv. ring.
Qed.

(** The bar of a vehicle in a trace is its share of the stack, also where
    the trace has no bar for it. *)
Lemma barra_porcentaje (dv : DataFrame) nombres v s :
  (barra v ((λ v, (v, porcentaje nombres v s dv))
              <$> filter (λ v, cuenta v s dv ≠ 0%nat)
                    (unique (etiquetas "tipo_vehiculo" dv)))
   == porcentaje nombres v s dv)%Q.
Proof.
  rewrite (barra_tabla (λ v, porcentaje nombres v s dv)).
  destruct (decide (v ∈ _)) as [Hin|Hin]; [done|].
  assert (cuenta v s dv = 0%nat) as H0.
  { destruct (decide (cuenta v s dv = 0%nat)) as [|Hn]; [done|].
    destruct Hin. apply list_elem_of_filter. split; [done|].
    apply cuenta_no_cero in Hn as (r & Hr & Hv & _).
    rewrite elem_of_unique, elem_of_etiquetas. eauto. }
  unfold porcentaje. rewrite H0. simpl. unfold Qdiv. ring.
Qed.

Lemma fig_vul_suma (dv : DataFrame) v r s :
  r ∈ dv → campo "tipo_vehiculo" r = Texto v → campo "lesividad" r = Texto s →
  (suma_Q ((λ t, barra v t.2) <$> fig_vul dv) == 100)%Q.
Proof.
  intros Hr Hv Hs. unfold fig_vul.
  set (nombres := nombres_de_trazas orden_lesividad (etiquetas "lesividad" dv)).
  rewrite <- list_fmap_compose.
  rewrite (suma_Q_partes (λ s, cuenta v s dv) _
             (inject_Z (Z.of_nat (suma_nat ((λ s', cuenta v s' dv) <$> nombres))))).
  - assert (suma_nat ((λ s', cuenta v s' dv) <$> nombres) ≠ 0%nat) as Hn.
    { apply (suma_nat_no_cero (λ s', cuenta v s' dv) nombres s).
      - apply elem_of_nombres_de_trazas, elem_of_etiquetas. eauto.
      - apply cuenta_no_cero. eauto. }
    field. intros H0. apply Hn.
    unfold Qeq in H0. simpl in H0. lia.
  - intros s'. simpl. apply barra_porcentaje.
Qed.

(** C4. Severity by vehicle: for a non-empty selection among the vehicle
    types the table offers, on a table where every record carries a
    severity label, the chart is drawn from the records of the selected
    types only, every bar it holds belongs to a selected type, and for
    each selected type the percentages of its bars over all the severity
    traces add up to 100. *)
Theorem C4_porcentajes_por_vehiculo (df : DataFrame) (vehiculos_sel : list string) :
  vehiculos_sel ≠ [] →
  (∀ w, w ∈ vehiculos_sel → w ∈ todos_los_vehiculos df) →
  (∀ r, r ∈ df → ∃ s, campo "lesividad" r = Texto s) →
  ∃ fig,
    vista_vul df vehiculos_sel = Some fig
    ∧ fig = fig_vul (df_vul df vehiculos_sel)
    ∧ (∀ r, r ∈ df_vul df vehiculos_sel
            ↔ r ∈ df ∧ ∃ w, w ∈ vehiculos_sel ∧ campo "tipo_vehiculo" r = Texto w)
    ∧ (∀ s barras w q, (s, barras) ∈ fig → (w, q) ∈ barras → w ∈ vehiculos_sel)
    ∧ (∀ v, v ∈ vehiculos_sel → (suma_Q ((λ t, barra v t.2) <$> fig) == 100)%Q).
Proof.
  intros Hsel Hop Hles. exists (fig_vul (df_vul df vehiculos_sel)).
  split_and!.
  - unfold vista_vul. by destruct vehiculos_sel.
  - done.
  - intros r. apply elem_of_df_vul.
  - intros s barras w q Hfig Hbar. unfold fig_vul in Hfig.
    apply list_elem_of_fmap in Hfig as (s' & [= -> ->] & _).
    apply list_elem_of_fmap in Hbar as (w' & [= -> ->] & Hw).
    apply list_elem_of_filter in Hw as [_ Hw].
    apply elem_of_unique, elem_of_etiquetas in Hw as (r & Hr & Hv).
    apply elem_of_df_vul in Hr as (_ & w & Hw & Hv'). congruence.
  - intros v Hv.
    specialize (Hop v Hv). unfold todos_los_vehiculos in Hop.
    apply elem_of_sorted, elem_of_unique, elem_of_etiquetas in Hop as (r & Hr & Hrv).
    destruct (Hles r Hr) as [s Hs].
    apply (fig_vul_suma _ v r s); [|done..].
    apply elem_of_df_vul. eauto.
Qed.

(** * The properties on the sample tables *)

Lemma carga_ejemplo :
  load_data fecha_dmy transformador_lineal None (Some archivo_ejemplo)
  = Listo tabla_ejemplo.
Proof.
  unfold load_data, data_path, tabla_ejemplo, archivo_ejemplo.
  apply (prepara_filas fecha_dmy transformador_lineal [fila_a; fila_b; fila_c]
           [dia_de 6 1 2024; dia_de 15 3 2024; dia_de 7 1 2024]).
  repeat (apply Forall2_cons_2; [vm_compute; reflexivity|]). apply Forall2_nil_2.
Defined.

Lemma C6_lesividad_fillna_witness :
  campo "lesividad" preparada_a = Texto "Se desconoce"
  ∧ campo "lesividad" preparada_c = campo "lesividad" fila_c.
Proof.
  split.
  - apply (C6_lesividad_fillna fecha_dmy transformador_lineal
             None (Some archivo_ejemplo) archivo_ejemplo tabla_ejemplo
             0%nat fila_a preparada_a eq_refl carga_ejemplo eq_refl eq_refl).
    vm_compute. reflexivity.
  - apply (C6_lesividad_fillna fecha_dmy transformador_lineal
             None (Some archivo_ejemplo) archivo_ejemplo tabla_ejemplo
             2%nat fila_c preparada_c eq_refl carga_ejemplo eq_refl eq_refl).
    vm_compute. reflexivity.
Defined.

Lemma C7_alcohol_flag_witness :
  ∃ b, campo "alcohol" preparada_c = Logico b
       ∧ (b = true ↔ campo "positiva_alcohol" fila_c = Texto "S")
       ∧ (isna (campo "positiva_alcohol" fila_c) = true → b = false).
Proof.
  exact (C7_alcohol_flag fecha_dmy transformador_lineal
           None (Some archivo_ejemplo) archivo_ejemplo tabla_ejemplo
           2%nat fila_c preparada_c eq_refl carga_ejemplo eq_refl eq_refl).
Defined.


Lemma C9_filas_y_marco_witness :
  length tabla_ejemplo = length archivo_ejemplo
  ∧ ∀ i r, archivo_ejemplo !! i = Some r →
      ∃ r', tabla_ejemplo !! i = Some r'
            ∧ to_datetime_dayfirst fecha_dmy (campo "fecha" r)
              = Listo (campo "fecha" r')
            ∧ ∀ c, c ∉ columnas_escritas → r' !! c = r !! c.
Proof.
  exact (C9_filas_y_marco fecha_dmy transformador_lineal
           None (Some archivo_ejemplo) archivo_ejemplo tabla_ejemplo
           eq_refl carga_ejemplo).
Defined.

(** On the sample file the date of the first row is replaced by its parsed
    value, a column that is none of severity, age bracket, alcohol, day of
    the week, coordinates and hour. *)
Lemma C9_contraejemplo :
  load_data fecha_dmy transformador_lineal None (Some archivo_ejemplo)
  = Listo tabla_ejemplo
  ∧ archivo_ejemplo !! 0%nat = Some fila_a
  ∧ tabla_ejemplo !! 0%nat = Some preparada_a
  ∧ ("fecha" ∉ ["lesividad"; "rango_edad"; "alcohol"; "positiva_alcohol";
                "dia_semana"; "lon"; "lat"; "coordenada_x_utm";
                "coordenada_y_utm"; "hora"; "hora_dt"; "hora_num"])
  ∧ fila_a !! "fecha" = Some (Texto "06/01/2024")
  ∧ preparada_a !! "fecha" = Some (dia_de 6 1 2024)
  ∧ preparada_a !! "fecha" ≠ fila_a !! "fecha".
Proof.
  split_and!; [exact carga_ejemplo|reflexivity|reflexivity| |
                vm_compute; reflexivity|vm_compute; reflexivity|].
  - apply (bool_decide_eq_false_1 _). vm_compute. reflexivity.
  - assert (preparada_a !! "fecha" = Some (dia_de 6 1 2024)) as ->
      by (vm_compute; reflexivity).
    assert (fila_a !! "fecha" = Some (Texto "06/01/2024")) as ->
      by (vm_compute; reflexivity).
    discriminate.
Qed.



Lemma C1_escenario_graves_19_witness :
  df_map [peaton_grave_19; conductor_leve_19; peaton_grave_8]
    "Sólo graves o mortales" 19 = [peaton_grave_19]
  ∧ mapa [peaton_grave_19; conductor_leve_19; peaton_grave_8]
      "Sólo graves o mortales" 19
    = Hexagonos [(campo "lon" peaton_grave_19, campo "lat" peaton_grave_19)].
Proof.
  apply (C1_escenario_graves_19 peaton_grave_19 conductor_leve_19 peaton_grave_8);
    try (vm_compute; reflexivity).
  intros r Hr.
  repeat (apply elem_of_cons in Hr as [->|Hr]; [split; vm_compute; reflexivity|]).
  by apply elem_of_nil in Hr.
Defined.

Lemma C10_puntos_de_la_hora_witness :
  (∀ p, p ∈ posiciones (df_map tabla_ejemplo "Todo el tráfico" 19) →
     ∃ r, r ∈ tabla_ejemplo ∧ p = (campo "lon" r, campo "lat" r)
          ∧ igual (campo "hora_num" r) (Entero 19) = true
          ∧ (∀ z, campo "hora_num" r = Entero z → z = 19)
          ∧ isna (campo "lat" r) = false ∧ isna (campo "lon" r) = false)
  ∧ (∀ r, isna (campo "hora_num" r) = true
          → r ∉ df_map tabla_ejemplo "Todo el tráfico" 19).
Proof. exact (C10_puntos_de_la_hora tabla_ejemplo "Todo el tráfico" 19). Defined.

(** On the sample table, with Friday and Saturday selected, the view draws
    the line of Saturday only: Friday, which has a record but no positive
    one, gets no line. *)
Lemma C3_contraejemplo :
  fig_alc tabla_ejemplo ["Viernes"; "Sábado"] = Lineas [("Sábado", [(3, 1%nat)])]
  ∧ ¬ (∀ d, d ∈ ["Viernes"; "Sábado"] →
         ∃ ts pts, fig_alc tabla_ejemplo ["Viernes"; "Sábado"] = Lineas ts
                   ∧ (d, pts) ∈ ts).
Proof.
  assert (fig_alc tabla_ejemplo ["Viernes"; "Sábado"]
          = Lineas [("Sábado", [(3, 1%nat)])]) as E by (vm_compute; reflexivity).
  split; [exact E|].
  intros H. destruct (H "Viernes") as (ts & pts & Hts & Hin); [left|].
  rewrite E in Hts. injection Hts as <-.
  apply list_elem_of_singleton in Hin. discriminate Hin.
Qed.

Lemma C3_lineas_de_dias_con_positivos_witness :
  fig_alc tabla_ejemplo [] = Info
  ∧ (fig_alc tabla_ejemplo ["Viernes"; "Sábado"] = Info
     ↔ ∀ r, r ∈ tabla_ejemplo →
         ¬ (igual (campo "alcohol" r) (Logico true) = true
            ∧ isin ["Viernes"; "Sábado"] (campo "dia_semana" r) = true))
  ∧ ∀ ts, fig_alc tabla_ejemplo ["Viernes"; "Sábado"] = Lineas ts →
      NoDup ts.*1
      ∧ (∀ d, d ∈ ts.*1 ↔ d ∈ ["Viernes"; "Sábado"]
                           ∧ ∃ h, positivos d h tabla_ejemplo ≠ 0%nat)
      ∧ (∀ d pts h n, (d, pts) ∈ ts →
           (h, n) ∈ pts ↔ n ≠ 0%nat ∧ n = positivos d h tabla_ejemplo).
Proof. exact (C3_lineas_de_dias_con_positivos tabla_ejemplo ["Viernes"; "Sábado"]). Defined.

Lemma C4_porcentajes_por_vehiculo_witness :
  ∃ fig,
    vista_vul tabla_ejemplo ["Turismo"] = Some fig
    ∧ fig = fig_vul (df_vul tabla_ejemplo ["Turismo"])
    ∧ (∀ r, r ∈ df_vul tabla_ejemplo ["Turismo"]
            ↔ r ∈ tabla_ejemplo
              ∧ ∃ w, w ∈ ["Turismo"] ∧ campo "tipo_vehiculo" r = Texto w)
    ∧ (∀ s barras w q, (s, barras) ∈ fig → (w, q) ∈ barras → w ∈ ["Turismo"])
    ∧ (∀ v, v ∈ ["Turismo"] → (suma_Q ((λ t, barra v t.2) <$> fig) == 100)%Q).
Proof.
  apply (C4_porcentajes_por_vehiculo tabla_ejemplo ["Turismo"]).
  - discriminate.
  - intros w ->%list_elem_of_singleton.
    apply (bool_decide_eq_true_1 _). vm_compute. reflexivity.
  - intros r Hr.
    repeat (apply elem_of_cons in Hr as [->|Hr]; [eexists; vm_compute; reflexivity|]).
    by apply elem_of_nil in Hr.
Defined.

(** * Further properties of the loader *)

Section Carga_desenlaces.

Variable analiza_fecha : valor → option Timestamp.
Variable transformer : valor → valor → valor * valor.

Lemma asigna_o_no_Detenido c f (df : DataFrame) :
  (∀ r, f r ≠ Detenido) → asigna_o c f df ≠ Detenido.
Proof.
  intros Hf. induction df as [|r df IH]; simpl; [done|].
  specialize (Hf r). destruct (f r); simpl; [|done..].
  destruct (asigna_o c f df); simpl; done.
Qed.

Lemma prepara_no_Detenido (df : DataFrame) :
  prepara analiza_fecha transformer df ≠ Detenido.
Proof.
  unfold prepara.
  pose proof (asigna_o_no_Detenido "fecha"
                (λ r, to_datetime_dayfirst analiza_fecha (campo "fecha" r)) df) as H.
  destruct (asigna_o "fecha" _ df); simpl; [done| |done].
  apply H. intros r. unfold to_datetime_dayfirst.
  destruct (isna _); [done|]. by destruct (analiza_fecha _).
Qed.

(** X1. The loader stops the page exactly when neither candidate file
    exists; when the first exists the second is not looked at, and the
    second serves only when the first is absent. *)
Theorem load_data_Detenido_iff (principal secundario : option DataFrame) :
  (load_data analiza_fecha transformer principal secundario = Detenido
   ↔ principal = None ∧ secundario = None)
  ∧ (∀ df otro, load_data analiza_fecha transformer (Some df) otro
                = load_data analiza_fecha transformer (Some df) None)
  ∧ (∀ df, load_data analiza_fecha transformer None (Some df)
           = load_data analiza_fecha transformer (Some df) None).
Proof.
  split_and!; [|done..].
  unfold load_data, data_path. split.
  - destruct principal as [df|]; [intros H; by apply prepara_no_Detenido in H|].
    destruct secundario as [df|]; [intros H; by apply prepara_no_Detenido in H|done].
  - by intros [-> ->].
Qed.


Lemma dia_de_la_semana (w : Z) :
  0 ≤ w < 7 →
  ∃ en d, nombres_ingleses !! Z.to_nat w = Some en
          ∧ orden !! Z.to_nat w = Some d
          ∧ Categorical orden (map_dict dias_map (Texto en)) = Texto d.
Proof.
  intros Hw.
  assert (w = 0 ∨ w = 1 ∨ w = 2 ∨ w = 3 ∨ w = 4 ∨ w = 5 ∨ w = 6) as Hc by lia.
  destruct Hc as [->|[->|[->|[->|[->|[->| ->]]]]]];
    eexists _, _; (split; [reflexivity|]); (split; [reflexivity|]);
    vm_compute; reflexivity.
Qed.

(** X3. The day of the week of a loaded record is missing exactly when its
    date is missing; otherwise it is one of the seven names of [orden],
    the one at the position of the weekday of the parsed date. *)
Theorem dia_semana_vocabulario principal secundario (crudo df : DataFrame) i r r' :
  data_path principal secundario = Some crudo →
  load_data analiza_fecha transformer principal secundario = Listo df →
  crudo !! i = Some r → df !! i = Some r' →
  (isna (campo "fecha" r) = true → campo "dia_semana" r' = NaN)
  ∧ (isna (campo "fecha" r) = false →
     ∃ t d, campo "fecha" r' = Marca t
            ∧ orden !! Z.to_nat ((dias_desde_epoca (year t) (month t) (day t) + 3) mod 7)
              = Some d
            ∧ d ∈ orden
            ∧ campo "dia_semana" r' = Texto d).
Proof.
  intros Hp Hl Hr Hr'.
  destruct (load_data_fila _ _ _ _ _ _ _ _ _ Hp Hl Hr Hr') as (v & Hv & ->).
  rewrite fila_preparada_dia_semana, fila_preparada_fecha.
  unfold to_datetime_dayfirst in Hv. split; intros Hna; rewrite Hna in Hv.
  - by injection Hv as <-.
  - destruct (analiza_fecha (campo "fecha" r)) as [t|]; [|discriminate].
    injection Hv as <-.
    destruct (dia_de_la_semana
                ((dias_desde_epoca (year t) (month t) (day t) + 3) mod 7))
      as (en & d & Hen & Hd & Hcat).
    { apply Z.mod_pos_bound. lia. }
    exists t, d. split_and!; [done|done|by eapply list_elem_of_lookup_2|].
    simpl. rewrite Hen. exact Hcat.
Qed.

(** X4. After loading, no record carries the age label 'Más de 74 años':
    a record that had it carries '> 74', and every other age cell, a
    missing one included, is what the file holds. *)
Theorem rango_edad_normalizado principal secundario (crudo df : DataFrame) i r r' :
  data_path principal secundario = Some crudo →
  load_data analiza_fecha transformer principal secundario = Listo df →
  crudo !! i = Some r → df !! i = Some r' →
  campo "rango_edad" r' ≠ Texto "Más de 74 años"
  ∧ (campo "rango_edad" r = Texto "Más de 74 años" →
     campo "rango_edad" r' = Texto "> 74")
  ∧ (campo "rango_edad" r ≠ Texto "Más de 74 años" →
     campo "rango_edad" r' = campo "rango_edad" r).
Proof.
  intros Hp Hl Hr Hr'.
  destruct (load_data_fila _ _ _ _ _ _ _ _ _ Hp Hl Hr Hr') as (v & _ & ->).
  rewrite fila_preparada_rango_edad. unfold replace.
  destruct (campo "rango_edad" r) as [|s| | | |]; try (split_and!; done).
  destruct (String.eqb s "Más de 74 años") eqn:E.
  - apply String.eqb_eq in E as ->. split_and!; done.
  - apply String.eqb_neq in E. split_and!; [congruence|congruence|done].
Qed.

End Carga_desenlaces.

(** ** Times the format reads *)

Lemma digito_cifra n : 0 ≤ n ≤ 9 → digito (cifra n) = Some n.
Proof.
  intros Hn.
  assert (n = 0 ∨ n = 1 ∨ n = 2 ∨ n = 3 ∨ n = 4 ∨ n = 5 ∨ n = 6 ∨ n = 7
          ∨ n = 8 ∨ n = 9) as Hc by lia.
  destruct Hc as [->|[->|[->|[->|[->|[->|[->|[->|[->| ->]]]]]]]]]; reflexivity.
Qed.

Lemma directiva_dos_cifras tope n r :
  0 ≤ n ≤ tope → n ≤ 99 →
  directiva tope (String (cifra (n / 10)) (String (cifra (n mod 10)) r))
  = [(n, r); (n / 10, String (cifra (n mod 10)) r)].
Proof.
  intros Hn H99. unfold directiva.
  assert (0 ≤ n / 10 ≤ 9) as Hd.
  { split; [apply Z.div_pos; lia|].
    assert (n / 10 < 10) by (apply Z.div_lt_upper_bound; lia). lia. }
  assert (0 ≤ n mod 10 ≤ 9) as Hu by (pose proof (Z.mod_pos_bound n 10); lia).
  rewrite (digito_cifra _ Hd), (digito_cifra _ Hu).
  assert (10 * (n / 10) + n mod 10 = n) as -> by (symmetry; apply Z.div_mod; lia).
  destruct (n <=? tope) eqn:E; [done|]. apply Z.leb_gt in E. lia.
Qed.

Lemma directiva_una_cifra tope h r :
  0 ≤ h ≤ 9 → directiva tope (String (cifra h) (String ":" r)) = [(h, String ":" r)].
Proof. intros Hh. unfold directiva. by rewrite digito_cifra. Qed.

Lemma de_campos_en_rango h m s :
  0 ≤ h ≤ 23 → 0 ≤ m ≤ 59 → 0 ≤ s ≤ 59 →
  de_campos h m s
  = {| year := 1900; month := 1; day := 1; hour := h; minute := m; second := s |}.
Proof.
  intros Hh Hm Hs. unfold de_campos. cbv zeta.
  assert ((h * 3600 + m * 60 + s) / 86400 = 0) as -> by (apply Z.div_small; lia).
  assert ((h * 3600 + m * 60 + s) / 3600 = h) as ->
    by (symmetry; apply (Z.div_unique _ _ _ (m * 60 + s)); lia).
  assert ((h * 3600 + m * 60 + s) / 60 = h * 60 + m) as ->
    by (symmetry; apply (Z.div_unique _ _ _ s); lia).
  assert ((h * 3600 + m * 60 + s) mod 60 = s) as ->
    by (symmetry; apply (Z.mod_unique _ _ (h * 60 + m)); lia).
  assert ((h * 60 + m) mod 60 = m) as ->
    by (symmetry; apply (Z.mod_unique _ _ h); lia).
  rewrite (Z.mod_small h 24) by lia. reflexivity.
Qed.

Lemma hora_texto_cifras h m s :
  hora_texto h m s
  = String (cifra (h / 10)) (String (cifra (h mod 10)) (String ":"
      (String (cifra (m / 10)) (String (cifra (m mod 10)) (String ":"
        (String (cifra (s / 10)) (String (cifra (s mod 10)) EmptyString))))))).
Proof. reflexivity. Qed.

Lemma hora_texto_corta_cifras h m s :
  hora_texto_corta h m s
  = String (cifra h) (String ":"
      (String (cifra (m / 10)) (String (cifra (m mod 10)) (String ":"
        (String (cifra (s / 10)) (String (cifra (s mod 10)) EmptyString)))))).
Proof. reflexivity. Qed.

(** The format reads back the fields of a time written [HH:MM:SS], and of
    one written [H:MM:SS]. *)
Lemma strptime_HMS_hora_texto h m s :
  0 ≤ h ≤ 23 → 0 ≤ m ≤ 59 → 0 ≤ s ≤ 61 →
  strptime_HMS (hora_texto h m s) = Some (h, m, s)
  ∧ (h ≤ 9 → strptime_HMS (hora_texto_corta h m s) = Some (h, m, s)).
Proof.
  intros Hh Hm Hs. split; [|intros H9].
  - rewrite hora_texto_cifras. unfold strptime_HMS, coincidencias.
    rewrite (directiva_dos_cifras 23 h) by lia.
    with_strategy opaque [directiva cifra] simpl.
    rewrite (directiva_dos_cifras 59 m) by lia.
    with_strategy opaque [directiva cifra] simpl.
    rewrite (directiva_dos_cifras 61 s) by lia. reflexivity.
  - rewrite hora_texto_corta_cifras. unfold strptime_HMS, coincidencias.
    rewrite (directiva_una_cifra 23 h) by lia.
    with_strategy opaque [directiva cifra] simpl.
    rewrite (directiva_dos_cifras 59 m) by lia.
    with_strategy opaque [directiva cifra] simpl.
    rewrite (directiva_dos_cifras 61 s) by lia. reflexivity.
Qed.

Section Carga_horas.

Variable analiza_fecha : valor → option Timestamp.
Variable transformer : valor → valor → valor * valor.

(** X5. A record whose time is written HH:MM:SS, or H:MM:SS with an hour
    before ten, with hour, minute and second in range, is loaded with the
    parsed time 1900-01-01 HH:MM:SS and with its hour HH as hour of day. *)
Theorem hora_num_de_hora_texto principal secundario (crudo df : DataFrame)
    i r r' h m s :
  data_path principal secundario = Some crudo →
  load_data analiza_fecha transformer principal secundario = Listo df →
  crudo !! i = Some r → df !! i = Some r' →
  0 ≤ h ≤ 23 → 0 ≤ m ≤ 59 → 0 ≤ s ≤ 59 →
  campo "hora" r = Texto (hora_texto h m s)
  ∨ (h ≤ 9 ∧ campo "hora" r = Texto (hora_texto_corta h m s)) →
  campo "hora_dt" r'
  = Marca {| year := 1900; month := 1; day := 1; hour := h; minute := m; second := s |}
  ∧ campo "hora_num" r' = Entero h.
Proof.
  intros Hp Hl Hr Hr' Hh Hm Hs Htxt.
  destruct (load_data_fila _ _ _ _ _ _ _ _ _ Hp Hl Hr Hr') as (v & _ & ->).
  rewrite fila_preparada_hora_dt, fila_preparada_hora_num.
  destruct (strptime_HMS_hora_texto h m s) as [Hlargo Hcorto]; [lia..|].
  assert (to_datetime_HMS (campo "hora" r)
          = Marca {| year := 1900; month := 1; day := 1;
                     hour := h; minute := m; second := s |}) as ->.
  { destruct Htxt as [->|[H9 ->]]; unfold to_datetime_HMS.
    - rewrite Hlargo. by rewrite de_campos_en_rango.
    - rewrite (Hcorto H9). by rewrite de_campos_en_rango. }
  done.
Qed.


End Carga_horas.

(** * Further properties of the views *)

(** ** Sums over groups *)

Lemma suma_nat_ceros {A} (l : list A) : suma_nat ((λ _, 0%nat) <$> l) = 0%nat.
Proof. unfold suma_nat. induction l as [|x l IH]; [done|]. by rewrite fmap_cons. Qed.

Lemma suma_nat_mas {A} (f g : A → nat) (l : list A) :
  suma_nat ((λ x, (f x + g x)%nat) <$> l)
  = (suma_nat (f <$> l) + suma_nat (g <$> l))%nat.
Proof.
  unfold suma_nat. induction l as [|x l IH]; [done|].
  rewrite !fmap_cons. cbn [foldr]. rewrite IH. lia.
Qed.

Lemma suma_nat_ext {A} (f g : A → nat) (l : list A) :
  (∀ x, x ∈ l → f x = g x) → suma_nat (f <$> l) = suma_nat (g <$> l).
Proof.
  intros H. unfold suma_nat. induction l as [|x l IH]; [done|].
  rewrite !fmap_cons. cbn [foldr].
  rewrite (H x) by left. rewrite IH; [done|]. intros y Hy. apply H. by right.
Qed.

Lemma suma_nat_unos {A} (l : list A) : suma_nat ((λ _, 1%nat) <$> l) = length l.
Proof.
  unfold suma_nat. induction l as [|x l IH]; [done|].
  rewrite fmap_cons. cbn [foldr length]. by rewrite IH.
Qed.

Lemma suma_nat_Permutation (l1 l2 : list nat) :
  l1 ≡ₚ l2 → suma_nat l1 = suma_nat l2.
Proof.
  unfold suma_nat. induction 1 as [|x l1 l2 _ IH|x y l|l1 l2 l3 _ IH1 _ IH2];
    cbn [foldr]; lia.
Qed.

Lemma suma_nat_cota {A} (f : A → nat) (l : list A) x :
  x ∈ l → (f x ≤ suma_nat (f <$> l))%nat.
Proof.
  unfold suma_nat. induction 1 as [x l|x y l _ IH]; rewrite fmap_cons; cbn [foldr]; lia.
Qed.

(** One key among distinct keys: the sum of its indicator is its weight. *)
Lemma suma_nat_indicador {K} `{EqDecision K} (ks : list K) (k0 : K) (c : nat) :
  NoDup ks → k0 ∈ ks →
  suma_nat ((λ k, if decide (k0 = k) then c else 0%nat) <$> ks) = c.
Proof.
  intros Hnd Hin. induction Hnd as [|k ks Hk Hnd IH]; [by apply elem_of_nil in Hin|].
  rewrite fmap_cons. unfold suma_nat in *. cbn [foldr].
  destruct (decide (k0 = k)) as [->|Hne].
  - rewrite (suma_nat_ext _ (λ _, 0%nat)).
    + fold (suma_nat ((λ _ : K, 0%nat) <$> ks)). rewrite suma_nat_ceros. lia.
    + intros y Hy. destruct (decide (k = y)) as [->|]; [done|done].
  - apply elem_of_cons in Hin as [?|Hin]; [done|]. by rewrite IH.
Qed.

(** Splitting a weighted list into the groups of a key loses nothing and
    counts nothing twice: the groups of distinct keys that cover the list
    weigh together what the items with a key weigh. *)
Lemma suma_por_grupos {A K} `{EqDecision K}
    (f : A → option K) (w : A → nat) (ks : list K) (l : list A) :
  NoDup ks → (∀ x k, x ∈ l → f x = Some k → k ∈ ks) →
  suma_nat ((λ k, suma_nat (w <$> filter (λ x, f x = Some k) l)) <$> ks)
  = suma_nat (w <$> filter (λ x, is_Some (f x)) l).
Proof.
  intros Hnd. induction l as [|x l IH]; intros Hks.
  - rewrite filter_nil. simpl. apply suma_nat_ceros.
  - assert (∀ y k, y ∈ l → f y = Some k → k ∈ ks) as Hks'
      by (intros y k Hy; apply Hks; by right).
    specialize (IH Hks').
    rewrite (suma_nat_ext _
      (λ k, ((if decide (f x = Some k) then w x else 0)
             + suma_nat (w <$> filter (λ y, f y = Some k) l))%nat)).
    2:{ intros k _. rewrite filter_cons. destruct (decide (f x = Some k)); [|done].
        rewrite fmap_cons. done. }
    rewrite suma_nat_mas, IH, filter_cons.
    destruct (f x) as [k0|] eqn:Hx.
    + rewrite decide_True by eauto. rewrite fmap_cons.
      change (suma_nat (w x :: ?t)) with (w x + suma_nat t)%nat.
      f_equal.
      rewrite (suma_nat_ext _ (λ k, if decide (k0 = k) then w x else 0%nat)).
      * apply suma_nat_indicador; [done|]. apply (Hks x); [left|done].
      * intros k _. destruct (decide (Some k0 = Some k)) as [[= ->]|Hne].
        -- by rewrite decide_True.
        -- rewrite decide_False; [done|]. congruence.
    + rewrite decide_False by (by intros [? ?]).
      rewrite (suma_nat_ext _ (λ _, 0%nat)).
      * by rewrite suma_nat_ceros.
      * intros k _. by rewrite decide_False.
Qed.

(** The sizes of the groups of a key add up to the number of items that
    have a key. *)
Lemma suma_de_grupos {A K} `{EqDecision K}
    (f : A → option K) (ks : list K) (l : list A) :
  NoDup ks → (∀ x k, x ∈ l → f x = Some k → k ∈ ks) →
  suma_nat ((λ k, length (filter (λ x, f x = Some k) l)) <$> ks)
  = length (filter (λ x, is_Some (f x)) l).
Proof.
  intros Hnd Hks.
  rewrite <- (suma_nat_unos (filter (λ x, is_Some (f x)) l)).
  rewrite <- (suma_por_grupos f (λ _, 1%nat) ks l Hnd Hks).
  apply suma_nat_ext. intros k _. by rewrite suma_nat_unos.
Qed.

(** ** 1. The spatial density view, in full *)

Lemma df_map_todo (df : DataFrame) hora_mapa :
  df_map df "Todo el tráfico" hora_mapa
  = dropna ["lat"; "lon"]
      (filter (λ r, igual (campo "hora_num" r) (Entero hora_mapa) = true) df).
Proof. reflexivity. Qed.

Lemma elem_of_base_mapa (df : DataFrame) hora_mapa r :
  r ∈ dropna ["lat"; "lon"]
        (filter (λ r, igual (campo "hora_num" r) (Entero hora_mapa) = true) df)
  ↔ r ∈ df ∧ igual (campo "hora_num" r) (Entero hora_mapa) = true
    ∧ isna (campo "lat" r) = false ∧ isna (campo "lon" r) = false.
Proof.
  rewrite elem_of_dropna, list_elem_of_filter. split.
  - intros [[? ?] Hc]. split_and!; try done; apply Hc; [left|right; left].
  - intros (? & ? & Hlat & Hlon). split; [done|].
    intros c [->|[->|?%elem_of_nil]%elem_of_cons]%elem_of_cons; done.
Qed.

(** X7. The rows of the spatial view are exactly the records of the table
    at the selected hour with both coordinates present that, under
    'Sólo graves o mortales', have one of the two severe labels and, under
    'Sólo atropellos', are pedestrians; the view shows the warning exactly
    when there is no such record, and otherwise a layer with one position
    per such record. *)
Theorem df_map_caracterizado (df : DataFrame) (escenario : string) (hora_mapa : Z) :
  (∀ r, r ∈ df_map df escenario hora_mapa
        ↔ r ∈ df ∧ igual (campo "hora_num" r) (Entero hora_mapa) = true
          ∧ isna (campo "lat" r) = false ∧ isna (campo "lon" r) = false
          ∧ (escenario = "Sólo graves o mortales" →
             isin graves (campo "lesividad" r) = true)
          ∧ (escenario = "Sólo atropellos" →
             campo "tipo_persona" r = Texto "Peatón"))
  ∧ (mapa df escenario hora_mapa = Aviso ↔ df_map df escenario hora_mapa = [])
  ∧ (∀ puntos, mapa df escenario hora_mapa = Hexagonos puntos →
       puntos = posiciones (df_map df escenario hora_mapa)
       ∧ length puntos = length (df_map df escenario hora_mapa)
       ∧ puntos ≠ []).
Proof.
  split_and!.
  - intros r. unfold df_map.
    destruct (String.eqb_spec escenario "Sólo graves o mortales") as [->|Hg].
    + rewrite list_elem_of_filter, elem_of_base_mapa. split.
      * intros (? & ? & ? & ? & ?). split_and!; try done.
      * intros (? & ? & ? & ? & Hg & _). split_and!; try done. by apply Hg.
    + destruct (String.eqb_spec escenario "Sólo atropellos") as [->|Ha].
      * rewrite list_elem_of_filter, elem_of_base_mapa, igual_Texto. split.
        -- intros (? & ? & ? & ? & ?). split_and!; try done.
        -- intros (? & ? & ? & ? & _ & Ha). split_and!; try done. by apply Ha.
      * rewrite elem_of_base_mapa. split.
        -- intros (? & ? & ? & ?). split_and!; try done.
        -- intros (? & ? & ? & ? & _). split_and!; done.
  - unfold mapa. by destruct (df_map df escenario hora_mapa).
  - intros puntos. unfold mapa.
    destruct (df_map df escenario hora_mapa) as [|r l] eqn:E; [done|].
    intros [= <-]. split_and!; [done| |done].
    simpl. f_equal. apply length_fmap.
Qed.

(** X8. The spatial view only removes rows: what it shows is a
    sub-sequence of the table, in the order of the table; the two
    restricted scenarios show a sub-sequence of what 'Todo el tráfico'
    shows, and any other scenario label shows the same as
    'Todo el tráfico'. *)
Theorem df_map_sublistas (df : DataFrame) (escenario : string) (hora_mapa : Z) :
  df_map df escenario hora_mapa `sublist_of` df_map df "Todo el tráfico" hora_mapa
  ∧ df_map df "Todo el tráfico" hora_mapa `sublist_of` df
  ∧ (escenario ≠ "Sólo graves o mortales" → escenario ≠ "Sólo atropellos" →
     df_map df escenario hora_mapa = df_map df "Todo el tráfico" hora_mapa).
Proof.
  rewrite df_map_todo. unfold df_map. split_and!.
  - destruct (String.eqb escenario _); [apply sublist_filter|].
    destruct (String.eqb escenario _); [apply sublist_filter|done].
  - unfold dropna. etrans; apply sublist_filter.
  - intros Hg Ha. apply String.eqb_neq in Hg, Ha. by rewrite Hg, Ha.
Qed.

(** ** The headline figures *)

Lemma veces_no_cero c k (df : DataFrame) :
  veces c k df ≠ 0%nat ↔ k ∈ sorted (unique (etiquetas c df)).
Proof.
  rewrite elem_of_sorted, elem_of_unique, elem_of_etiquetas. unfold veces. split.
  - intros Hn. destruct (filter _ df) as [|r l] eqn:E; [done|].
    assert (r ∈ r :: l) as Hr by left. rewrite <- E in Hr.
    apply list_elem_of_filter in Hr as [? ?]. eauto.
  - intros (r & Hr & Hc). by eapply filter_length_pos.
Qed.

Lemma cabeza_del_filtro {A} (R : relation A) `{!Reflexive R}
    (P : A → Prop) `{∀ x, Decision (P x)} (l : list A) d :
  StronglySorted R l → head (filter P l) = Some d →
  ∀ k, k ∈ filter P l → R d k.
Proof.
  induction 1 as [|x l Hs IH Hall]; [done|].
  rewrite filter_cons. destruct (decide (P x)); [|done].
  simpl. intros [= ->] k [->|Hk]%elem_of_cons; [done|].
  apply list_elem_of_filter in Hk as [_ Hk].
  by eapply Forall_forall in Hall.
Qed.

(** X9. The top district is found exactly when some record has a district
    label (on a table without any, indexing the empty mode raises); it is
    then a district that no other has more records than, and among the
    districts with as many records it is the first in sorted order. *)
Theorem distrito_top_maximo (df : DataFrame) :
  (distrito_top df = None ↔ ∀ r k, r ∈ df → campo "distrito" r ≠ Texto k)
  ∧ ∀ d, distrito_top df = Some d →
      veces "distrito" d df ≠ 0%nat
      ∧ (∀ k, (veces "distrito" k df ≤ veces "distrito" d df)%nat)
      ∧ (∀ k, veces "distrito" k df = veces "distrito" d df → String.le d k).
Proof.
  unfold distrito_top, mode.
  set (ks := sorted (unique (etiquetas "distrito" df))).
  set (M := max_list ((λ k, veces "distrito" k df) <$> ks)).
  assert (∀ k, (veces "distrito" k df ≤ M)%nat) as Hmax.
  { intros k. destruct (decide (veces "distrito" k df = 0%nat)) as [->|Hn]; [lia|].
    apply veces_no_cero in Hn. apply max_list_elem_of_le.
    apply list_elem_of_fmap. by exists k. }
  split.
  - rewrite head_None. split.
    + intros Hnil r k Hr Hc.
      assert (ks ≠ []) as Hks.
      { intros E. assert (k ∈ ks) as Hk.
        { apply veces_no_cero. unfold veces. by eapply filter_length_pos. }
        rewrite E in Hk. by apply elem_of_nil in Hk. }
      assert (M ∈ (λ k, veces "distrito" k df) <$> ks) as HM.
      { apply max_list_elem_of. by destruct ks. }
      apply list_elem_of_fmap in HM as (k' & HM & Hk').
      assert (k' ∈ filter (λ k, veces "distrito" k df = M) ks) as Hin
        by by apply list_elem_of_filter.
      rewrite Hnil in Hin. by apply elem_of_nil in Hin.
    + intros Hno. destruct (filter _ ks) as [|k l] eqn:E; [done|].
      assert (k ∈ k :: l) as Hk by left. rewrite <- E in Hk.
      apply list_elem_of_filter in Hk as [_ Hk].
      unfold ks in Hk. rewrite elem_of_sorted, elem_of_unique, elem_of_etiquetas in Hk.
      destruct Hk as (r & Hr & Hc). by destruct (Hno r k Hr).
  - intros d Hd. pose proof (head_Some_elem_of _ _ Hd) as Hin.
    apply list_elem_of_filter in Hin as [HdM Hdk]. split_and!.
    + by apply veces_no_cero.
    + intros k. rewrite HdM. apply Hmax.
    + intros k Hk.
      apply (cabeza_del_filtro String.le (λ k, veces "distrito" k df = M) ks d).
      * apply StronglySorted_sorted.
      * exact Hd.
      * apply list_elem_of_filter. split; [congruence|].
        apply veces_no_cero. rewrite Hk. by apply veces_no_cero.
Qed.

(** ** 2. Alcohol at the weekend: nothing lost, hours in order *)

Lemma length_omap_filter {A B} (g : A → option B) (l : list A) :
  length (omap g l) = length (filter (λ x, is_Some (g x)) l).
Proof.
  induction l as [|x l IH]; [done|].
  rewrite filter_cons.
  change (omap g (x :: l))
    with (match g x with Some y => y :: omap g l | None => omap g l end).
  destruct (g x) as [b|] eqn:E.
  - rewrite decide_True by eauto. cbn [length]. by rewrite IH.
  - rewrite decide_False by (by intros [? ?]). done.
Qed.

Lemma counts_suma (dfa : DataFrame) :
  suma_nat ((λ c, c.2) <$> counts dfa) = length (omap clave dfa).
Proof.
  unfold counts. rewrite <- list_fmap_compose.
  rewrite (suma_nat_Permutation _
             ((λ k, length (filter (λ r, clave r = Some k) dfa))
                <$> unique (omap clave dfa))).
  - rewrite length_omap_filter. apply suma_de_grupos; [apply NoDup_unique|].
    intros r k Hr Hk. apply elem_of_unique, list_elem_of_omap. eauto.
  - apply fmap_Permutation, merge_sort_Permutation.
Qed.

Lemma traza_suma (cs : list (Z * string * nat)) d :
  suma_nat (omap (λ '(h, d', n), if String.eqb d' d then Some (h, n) else None) cs).*2
  = suma_nat ((λ c, c.2) <$> filter (λ c, Some c.1.2 = Some d) cs).
Proof.
  induction cs as [|[[h d'] n] cs IH]; [done|].
  rewrite filter_cons. cbn [omap list_omap]. simpl.
  destruct (String.eqb_spec d' d) as [->|Hne].
  - rewrite decide_True by done. rewrite !fmap_cons.
    change (suma_nat (?a :: ?t)) with (a + suma_nat t)%nat. simpl.
    f_equal. exact IH.
  - rewrite decide_False by congruence. exact IH.
Qed.

Lemma trazas_suma (cs : list (Z * string * nat)) :
  suma_nat ((λ t, suma_nat t.2.*2) <$> trazas cs) = suma_nat ((λ c, c.2) <$> cs).
Proof.
  unfold trazas. rewrite <- list_fmap_compose.
  rewrite (suma_nat_ext _
             (λ d, suma_nat ((λ c, c.2) <$> filter (λ c, Some c.1.2 = Some d) cs))).
  2:{ intros d _. simpl. apply traza_suma. }
  rewrite (suma_por_grupos (λ c : Z * string * nat, Some c.1.2) (λ c, c.2)).
  - f_equal. f_equal. clear. induction cs as [|c cs IH]; [done|].
    rewrite filter_cons_True by eauto. by rewrite IH.
  - apply NoDup_unique.
  - intros [[h d'] n] k Hc [= <-]. apply elem_of_unique, list_elem_of_fmap.
    by exists (h, d', n).
Qed.

(** X10. The points of all the lines of the alcohol chart count together
    exactly the alcohol-positive records of the selected days that have an
    hour: each such record is counted once, and nothing else is. *)
Theorem fig_alc_cuenta_todo (df : DataFrame) (dias_sel : list string) ts :
  fig_alc df dias_sel = Lineas ts →
  suma_nat ((λ t, suma_nat t.2.*2) <$> ts)
  = length (filter (λ r, is_Some (clave r)) (df_alc df dias_sel)).
Proof.
  unfold fig_alc. intros H.
  assert (ts = trazas (counts (df_alc df dias_sel))) as ->.
  { destruct (df_alc df dias_sel); [discriminate|]. by injection H as <-. }
  by rewrite trazas_suma, counts_suma, length_omap_filter.
Qed.

#[global] Instance antes_trans : Transitive antes.
Proof. intros [a1 a2] [b1 b2] [c1 c2]. unfold antes. simpl. lia. Qed.

#[global] Instance antes_total : Total antes.
Proof. intros [a1 a2] [b1 b2]. unfold antes. simpl. lia. Qed.

Lemma traza_en_orden (f : Z * string → nat) (ks : list (Z * string)) d :
  StronglySorted antes ks → NoDup ks →
  StronglySorted (λ a b : Z * nat, a.1 < b.1)
    (omap (λ '(h, d', n), if String.eqb d' d then Some (h, n) else None)
       ((λ k, (k.1, k.2, f k)) <$> ks)).
Proof.
  induction 1 as [|[h d'] ks Hs IH Hall]; intros Hnd; [constructor|].
  apply NoDup_cons in Hnd as [Hk Hnd]. specialize (IH Hnd).
  rewrite fmap_cons. cbn [omap list_omap]. simpl.
  destruct (String.eqb_spec d' d) as [->|Hne]; [|exact IH].
  constructor; [exact IH|].
  apply Forall_forall. intros [h2 n2] Hin.
  apply list_elem_of_omap in Hin as ([[h3 d3] n3] & Hin & Hsel).
  apply list_elem_of_fmap in Hin as ([h4 d4] & [= -> -> ->] & Hin).
  simpl in Hsel. destruct (String.eqb_spec d4 d) as [->|]; [|discriminate].
  injection Hsel as <- <-. simpl.
  eapply Forall_forall in Hall; [|exact Hin].
  unfold antes in Hall. simpl in Hall.
  destruct Hall as [?|[-> _]]; [done|]. by destruct Hk.
Qed.

(** X11. Every line of the alcohol chart runs through its points in
    strictly increasing order of the hour, so no hour appears twice on a
    line. *)
Theorem fig_alc_horas_en_orden (df : DataFrame) (dias_sel : list string) ts d pts :
  fig_alc df dias_sel = Lineas ts → (d, pts) ∈ ts →
  StronglySorted (λ a b : Z * nat, a.1 < b.1) pts.
Proof.
  unfold fig_alc. intros H Hin.
  assert (ts = trazas (counts (df_alc df dias_sel))) as ->.
  { destruct (df_alc df dias_sel); [discriminate|]. by injection H as <-. }
  unfold trazas in Hin. apply list_elem_of_fmap in Hin as (d' & [= -> ->] & _).
  unfold counts. apply traza_en_orden.
  - apply StronglySorted_merge_sort; apply _.
  - rewrite merge_sort_Permutation. apply NoDup_unique.
Qed.

(** ** Histograms normalised to percent *)


Lemma cuenta_en_no_cero cx cc x s (df : DataFrame) :
  cuenta_en cx cc x s df ≠ 0%nat
  ↔ ∃ r, r ∈ df ∧ campo cx r = Texto x ∧ campo cc r = Texto s.
Proof.
  unfold cuenta_en. split.
  - intros Hn.
    destruct (filter _ df) as [|r l] eqn:E; [done|].
    assert (r ∈ r :: l) as Hr by left. rewrite <- E in Hr.
    apply list_elem_of_filter in Hr as [[Hx Hs]%andb_true_iff Hr].
    apply igual_Texto in Hx, Hs. eauto.
  - intros (r & Hr & Hx & Hs). eapply filter_length_pos; [done|].
    simpl. rewrite Hx, Hs. simpl. by rewrite !String.eqb_refl.
Qed.

Lemma NoDup_nombres_de_trazas cats presentes :
  NoDup cats → NoDup (nombres_de_trazas cats presentes).
Proof.
  intros Hc. unfold nombres_de_trazas. apply NoDup_app. split_and!.
  - by apply NoDup_filter.
  - intros s [_ Hs]%list_elem_of_filter [Hn _]%list_elem_of_filter. done.
  - apply NoDup_filter, NoDup_unique.
Qed.

Lemma histograma_nombres cx cc cats (df : DataFrame) :
  (histograma_percent cx cc cats df).*1 = nombres_de_trazas cats (etiquetas cc df).
Proof.
  unfold histograma_percent. rewrite <- list_fmap_compose. apply list_fmap_id.
Qed.

Lemma porcentaje_en_cotas cx cc nombres x s (df : DataFrame) :
  s ∈ nombres → cuenta_en cx cc x s df ≠ 0%nat →
  (0 < porcentaje_en cx cc nombres x s df
   ∧ porcentaje_en cx cc nombres x s df <= 100)%Q.
Proof.
  intros Hs Hn. unfold porcentaje_en.
  pose proof (suma_nat_cota (λ s', cuenta_en cx cc x s' df) nombres s Hs) as Hle.
  simpl in Hle.
  set (c := cuenta_en cx cc x s df) in *.
  set (T := suma_nat ((λ s', cuenta_en cx cc x s' df) <$> nombres)) in *.
  assert (0 < inject_Z (Z.of_nat T))%Q as HT.
  { change 0%Q with (inject_Z 0). rewrite <- Zlt_Qlt. lia. }
  split.
  - apply Qlt_shift_div_l; [done|]. rewrite Qmult_0_l.
    change 0%Q with (inject_Z 0). change 100%Q with (inject_Z 100).
    rewrite <- inject_Z_mult, <- Zlt_Qlt. lia.
  - apply Qle_shift_div_r; [done|].
    change 100%Q with (inject_Z 100).
    rewrite <- !inject_Z_mult, <- Zle_Qle. lia.
Qed.

Lemma barra_porcentaje_en cx cc (df : DataFrame) nombres x s :
  (barra x ((λ x, (x, porcentaje_en cx cc nombres x s df))
              <$> filter (λ x, cuenta_en cx cc x s df ≠ 0%nat)
                    (unique (etiquetas cx df)))
   == porcentaje_en cx cc nombres x s df)%Q.
Proof.
  rewrite (barra_tabla (λ x, porcentaje_en cx cc nombres x s df)).
  destruct (decide (x ∈ _)) as [Hin|Hin]; [done|].
  assert (cuenta_en cx cc x s df = 0%nat) as H0.
  { destruct (decide (cuenta_en cx cc x s df = 0%nat)) as [|Hn]; [done|].
    destruct Hin. apply list_elem_of_filter. split; [done|].
    apply cuenta_en_no_cero in Hn as (r & Hr & Hx & _).
    rewrite elem_of_unique, elem_of_etiquetas. eauto. }
  unfold porcentaje_en. rewrite H0. simpl. unfold Qdiv. ring.
Qed.

(** What the traces and bars of a percent histogram are: one trace per
    label of the colour column, none twice; in a trace one bar per position
    that has records in it, none twice, each above 0 and at most 100; and
    at a position where some record has a colour label the bars of all
    the traces add up to 100. *)
Lemma histograma_percent_propiedades cx cc cats (df : DataFrame) :
  NoDup cats →
  NoDup (histograma_percent cx cc cats df).*1
  ∧ (∀ s, s ∈ (histograma_percent cx cc cats df).*1
          ↔ ∃ r, r ∈ df ∧ campo cc r = Texto s)
  ∧ (∀ s barras, (s, barras) ∈ histograma_percent cx cc cats df →
       NoDup barras.*1
       ∧ ∀ x q, (x, q) ∈ barras →
           (∃ r, r ∈ df ∧ campo cx r = Texto x ∧ campo cc r = Texto s)
           ∧ (0 < q ∧ q <= 100)%Q)
  ∧ (∀ x r s, r ∈ df → campo cx r = Texto x → campo cc r = Texto s →
       (suma_Q ((λ t, barra x t.2) <$> histograma_percent cx cc cats df) == 100)%Q).
Proof.
  intros Hcats. split_and!.
  - rewrite histograma_nombres. by apply NoDup_nombres_de_trazas.
  - intros s. by rewrite histograma_nombres, elem_of_nombres_de_trazas, elem_of_etiquetas.
  - intros s barras Hin. unfold histograma_percent in Hin.
    apply list_elem_of_fmap in Hin as (s' & [= -> ->] & Hs). split.
    + assert (((λ x, (x, porcentaje_en cx cc
                                 (nombres_de_trazas cats (etiquetas cc df)) x s' df))
                 <$> filter (λ x, cuenta_en cx cc x s' df ≠ 0%nat)
                       (unique (etiquetas cx df))).*1
              = filter (λ x, cuenta_en cx cc x s' df ≠ 0%nat)
                  (unique (etiquetas cx df))) as ->
        by (rewrite <- list_fmap_compose; apply list_fmap_id).
      apply NoDup_filter, NoDup_unique.
    + intros x q (x' & [= -> ->] & Hx)%list_elem_of_fmap.
      apply list_elem_of_filter in Hx as [Hn _]. split.
      * by apply cuenta_en_no_cero.
      * by apply porcentaje_en_cotas.
  - intros x r s Hr Hx Hs. unfold histograma_percent.
    set (nombres := nombres_de_trazas cats (etiquetas cc df)).
    rewrite <- list_fmap_compose.
    rewrite (suma_Q_partes (λ s, cuenta_en cx cc x s df) _
               (inject_Z (Z.of_nat (suma_nat ((λ s', cuenta_en cx cc x s' df) <$> nombres))))).
    + assert (suma_nat ((λ s', cuenta_en cx cc x s' df) <$> nombres) ≠ 0%nat) as Hn.
      { apply (suma_nat_no_cero (λ s', cuenta_en cx cc x s' df) nombres s).
        - apply elem_of_nombres_de_trazas, elem_of_etiquetas. eauto.
        - apply cuenta_en_no_cero. eauto. }
      field. intros H0. apply Hn. unfold Qeq in H0. simpl in H0. lia.
    + intros s'. simpl. apply barra_porcentaje_en.
Qed.



(** X13. The default of the vehicle selector holds exactly the types of
    [seleccion_defecto] that some record of the table has, in the order of
    that list, so every default is one of the options offered; the
    options are the vehicle types of the table, sorted and without
    repetition. *)
Theorem vehiculos_por_defecto_validos (df : DataFrame) :
  (∀ v, v ∈ vehiculos_por_defecto df
        ↔ v ∈ seleccion_defecto ∧ ∃ r, r ∈ df ∧ campo "tipo_vehiculo" r = Texto v)
  ∧ vehiculos_por_defecto df `sublist_of` seleccion_defecto
  ∧ (∀ v, v ∈ vehiculos_por_defecto df → v ∈ todos_los_vehiculos df)
  ∧ StronglySorted String.le (todos_los_vehiculos df)
  ∧ NoDup (todos_los_vehiculos df)
  ∧ (∀ v, v ∈ todos_los_vehiculos df
          ↔ ∃ r, r ∈ df ∧ campo "tipo_vehiculo" r = Texto v).
Proof.
  assert (∀ v, v ∈ todos_los_vehiculos df
               ↔ ∃ r, r ∈ df ∧ campo "tipo_vehiculo" r = Texto v) as Hop.
  { intros v. unfold todos_los_vehiculos.
    by rewrite elem_of_sorted, elem_of_unique, elem_of_etiquetas. }
  unfold vehiculos_por_defecto. split_and!.
  - intros v. rewrite list_elem_of_filter, Hop. tauto.
  - apply sublist_filter.
  - intros v [? _]%list_elem_of_filter. done.
  - apply StronglySorted_sorted.
  - apply NoDup_sorted, NoDup_unique.
  - done.
Qed.

(** ** 4. Sex and role *)

Lemma elem_of_df_sex (df : DataFrame) r :
  r ∈ df_sex df
  ↔ r ∈ df ∧ (campo "sexo" r = Texto "Hombre" ∨ campo "sexo" r = Texto "Mujer").
Proof.
  unfold df_sex. rewrite list_elem_of_filter. split.
  - intros [Hi Hr]. split; [done|].
    destruct (campo "sexo" r) as [|s| | | |]; try discriminate.
    apply isin_Texto in Hi.
    apply elem_of_cons in Hi as [->|Hi]; [by left|].
    apply list_elem_of_singleton in Hi as ->. by right.
  - intros [Hr [->| ->]]; (split; [|done]); apply isin_Texto; [left|right; left].
Qed.

(** X14. The chart of roles by sex is drawn from the records whose sex is
    'Hombre' or 'Mujer' only: every bar stands at one of these two, each
    bar is above 0 and at most 100, there is one trace per role found among
    those records, and for a sex that has a record with a role the bars
    over all the roles add up to 100. *)
Theorem fig_generos_por_sexo (df : DataFrame) :
  NoDup (fig_generos (df_sex df)).*1
  ∧ (∀ rol, rol ∈ (fig_generos (df_sex df)).*1
            ↔ ∃ r, r ∈ df_sex df ∧ campo "tipo_persona" r = Texto rol)
  ∧ (∀ rol barras sexo q, (rol, barras) ∈ fig_generos (df_sex df) →
       (sexo, q) ∈ barras →
       (sexo = "Hombre" ∨ sexo = "Mujer") ∧ (0 < q ∧ q <= 100)%Q)
  ∧ (∀ sexo r rol, r ∈ df → campo "sexo" r = Texto sexo →
       sexo = "Hombre" ∨ sexo = "Mujer" →
       campo "tipo_persona" r = Texto rol →
       (suma_Q ((λ t, barra sexo t.2) <$> fig_generos (df_sex df)) == 100)%Q).
Proof.
  unfold fig_generos.
  destruct (histograma_percent_propiedades "sexo" "tipo_persona" []
              (df_sex df) (NoDup_nil_2)) as (H1 & H2 & H3 & H4).
  split_and!; [done|done| |].
  - intros rol barras sexo q Hin Hbar.
    destruct (H3 rol barras Hin) as [_ Hb].
    destruct (Hb sexo q Hbar) as [(r & Hr & Hs & _) Hq]. split; [|done].
    apply elem_of_df_sex in Hr as [_ Hsx]. rewrite Hs in Hsx.
    destruct Hsx as [[= ->]|[= ->]]; auto.
  - intros sexo r rol Hr Hs Hsx Hrol. apply (H4 sexo r rol); [|done..].
    apply elem_of_df_sex. split; [done|]. rewrite Hs. destruct Hsx as [->| ->]; auto.
Qed.

(** ** Counting by label *)

Lemma etiqueta_Some c (r : Fila) k :
  match campo c r with Texto s => Some s | _ => None end = Some k
  ↔ campo c r = Texto k.
Proof. destruct (campo c r); split; congruence. Qed.

(** The records per label, over distinct labels that cover the column, add
    up to the number of records that have a label. *)
Lemma veces_suma c (ks : list string) (df : DataFrame) :
  NoDup ks → (∀ k, k ∈ etiquetas c df → k ∈ ks) →
  suma_nat ((λ k, veces c k df) <$> ks) = length (etiquetas c df).
Proof.
  intros Hnd Hks. unfold etiquetas. rewrite length_omap_filter.
  rewrite <- (suma_de_grupos
                (λ r, match campo c r with Texto s => Some s | _ => None end)
                ks df Hnd).
  - apply suma_nat_ext. intros k _. unfold veces.
    apply filter_length_ext. intros r _. by rewrite etiqueta_Some.
  - intros r k Hr Hk. apply Hks. apply elem_of_etiquetas.
    exists r. split; [done|]. by apply etiqueta_Some.
Qed.

(** ** 4. The pie of severe outcomes *)

Lemma elem_of_df_graves (df : DataFrame) r :
  r ∈ df_graves (df_sex df)
  ↔ r ∈ df ∧ (campo "sexo" r = Texto "Hombre" ∨ campo "sexo" r = Texto "Mujer")
    ∧ isin graves_hospital (campo "lesividad" r) = true.
Proof.
  unfold df_graves. rewrite list_elem_of_filter, elem_of_df_sex. tauto.
Qed.

(** X15. The pie of severe outcomes is drawn from the records of the two
    sexes whose severity is one of the three hospital labels; it has at
    most the slices 'Hombre' and 'Mujer', none of them empty, each as large
    as the number of those records of its sex, and together as large as
    the number of all those records. *)
Theorem fig_pie_reparto (df : DataFrame) :
  (∀ r, r ∈ df_graves (df_sex df)
        ↔ r ∈ df
          ∧ (campo "sexo" r = Texto "Hombre" ∨ campo "sexo" r = Texto "Mujer")
          ∧ isin graves_hospital (campo "lesividad" r) = true)
  ∧ NoDup (fig_pie (df_graves (df_sex df))).*1
  ∧ (∀ k n, (k, n) ∈ fig_pie (df_graves (df_sex df)) →
       (k = "Hombre" ∨ k = "Mujer") ∧ n ≠ 0%nat
       ∧ n = veces "sexo" k (df_graves (df_sex df)))
  ∧ suma_nat (fig_pie (df_graves (df_sex df))).*2 = length (df_graves (df_sex df)).
Proof.
  set (dg := df_graves (df_sex df)).
  assert (∀ r, r ∈ dg → campo "sexo" r = Texto "Hombre" ∨ campo "sexo" r = Texto "Mujer")
    as Hsexo by (intros r Hr; by apply elem_of_df_graves in Hr as (_ & ? & _)).
  split_and!.
  - apply elem_of_df_graves.
  - unfold fig_pie. rewrite <- list_fmap_compose.
    assert ((fst ∘ (λ k, (k, veces "sexo" k dg))) <$> unique (etiquetas "sexo" dg)
            = unique (etiquetas "sexo" dg)) as -> by apply list_fmap_id.
    apply NoDup_unique.
  - intros k n (k' & [= -> ->] & Hk)%list_elem_of_fmap.
    pose proof (proj1 (elem_of_unique _ _) Hk) as Hk'.
    apply elem_of_etiquetas in Hk' as (r & Hr & Hc). split_and!; [|  |done].
    + destruct (Hsexo r Hr) as [H|H]; rewrite H in Hc; injection Hc as <-; auto.
    + unfold veces. by eapply filter_length_pos.
  - unfold fig_pie. rewrite <- list_fmap_compose.
    change (snd ∘ (λ k, (k, veces "sexo" k dg))) with (λ k, veces "sexo" k dg).
    rewrite (veces_suma "sexo" _ dg (NoDup_unique _)).
    + unfold etiquetas. rewrite length_omap_filter.
      rewrite (filter_length_ext _ (λ _, True)).
      * f_equal. clear. induction dg as [|r l IH]; [done|].
        by rewrite filter_cons_True, IH.
      * intros r Hr. split; [done|]. intros _.
        destruct (Hsexo r Hr) as [-> | ->]; eauto.
    + intros k. by rewrite elem_of_unique.
Qed.

(** ** 5. The age pyramid: nothing lost *)

Lemma df_sexo_valores sexo (df : DataFrame) :
  (reindex (y_age df) 0
     (groupby_size "rango_edad"
        (filter (λ r, igual (campo "sexo" r) (Texto sexo) = true) df))).*2
  = (λ k, veces "rango_edad" k
            (filter (λ r, igual (campo "sexo" r) (Texto sexo) = true) df))
      <$> y_age df.
Proof.
  unfold reindex. rewrite <- list_fmap_compose.
  apply list_fmap_ext. intros i k _. simpl. apply groupby_size_lookup.
Qed.

(** X16. The two series of the age pyramid lose only the records without
    an age bracket: the counts of the men's series add up to the number of
    men with an age bracket, and likewise for the women's. *)
Theorem piramide_cuenta_todo (df : DataFrame) :
  suma_nat (df_m df).*2
  = length (etiquetas "rango_edad"
              (filter (λ r, igual (campo "sexo" r) (Texto "Hombre") = true) df))
  ∧ suma_nat (df_f df).*2
    = length (etiquetas "rango_edad"
                (filter (λ r, igual (campo "sexo" r) (Texto "Mujer") = true) df)).
Proof.
  assert (∀ sexo,
    suma_nat (reindex (y_age df) 0
                (groupby_size "rango_edad"
                   (filter (λ r, igual (campo "sexo" r) (Texto sexo) = true) df))).*2
    = length (etiquetas "rango_edad"
                (filter (λ r, igual (campo "sexo" r) (Texto sexo) = true) df))) as H.
  { intros sexo. rewrite df_sexo_valores. apply veces_suma.
    - apply NoDup_sorted, NoDup_unique.
    - intros k (r & [_ Hr]%list_elem_of_filter & Hc)%elem_of_etiquetas.
      apply elem_of_y_age. eauto. }
  split; apply H.
Qed.

(** ** The map over the hours of the slider *)

Lemma igual_Entero_unico v a b :
  igual v (Entero a) = true → igual v (Entero b) = true → a = b.
Proof.
  destruct v; simpl; try discriminate;
    rewrite !Qeq_bool_iff; unfold Qeq; simpl; intros H1 H2; nia.
Qed.

Lemma df_map_length (df : DataFrame) escenario hora_mapa :
  length (df_map df escenario hora_mapa)
  = length (filter (en_el_mapa escenario hora_mapa) df).
Proof.
  assert (∀ r, r ∈ df →
            (forallb (λ c, notna (campo c r)) ["lat"; "lon"] = true
             ∧ igual (campo "hora_num" r) (Entero hora_mapa) = true)
            ↔ igual (campo "hora_num" r) (Entero hora_mapa) = true
              ∧ isna (campo "lat" r) = false ∧ isna (campo "lon" r) = false) as Hb.
  { intros r _. simpl. unfold notna. rewrite !andb_true_iff, !negb_true_iff. tauto. }
  unfold df_map, dropna, en_el_mapa.
  destruct (String.eqb_spec escenario "Sólo graves o mortales") as [->|Hg].
  - rewrite !list_filter_filter. apply filter_length_ext. intros r Hr.
    specialize (Hb r Hr).
    pose proof (eq_refl : "Sólo graves o mortales" = "Sólo graves o mortales").
    assert ("Sólo graves o mortales" ≠ "Sólo atropellos") by discriminate.
    tauto.
  - destruct (String.eqb_spec escenario "Sólo atropellos") as [->|Ha].
    + rewrite !list_filter_filter. apply filter_length_ext. intros r Hr.
      specialize (Hb r Hr). rewrite igual_Texto.
      pose proof (eq_refl : "Sólo atropellos" = "Sólo atropellos").
      tauto.
    + rewrite list_filter_filter. apply filter_length_ext. intros r Hr.
      specialize (Hb r Hr). tauto.
Qed.

Lemma filter_length_mono {A} (P Q : A → Prop)
    `{∀ x, Decision (P x)} `{∀ x, Decision (Q x)} (l : list A) :
  (∀ x, P x → Q x) → (length (filter P l) ≤ length (filter Q l))%nat.
Proof.
  intros HPQ. rewrite <- (list_filter_filter_l P Q l HPQ). apply length_filter.
Qed.

(** X17. Over the 24 positions of the hour slider a record is on the map
    of a scenario at most once: the rows of the 24 maps add up to the
    number of records that are on one of them.  Under
    'Sólo graves o mortales' that is never more than the headline count of
    severe cases, which is never more than the headline count of people. *)
Theorem mapa_en_24_horas (df : DataFrame) (escenario : string) :
  suma_nat ((λ h, length (df_map df escenario h)) <$> seqZ 0 24)
  = length (filter (λ r, Exists (λ h, en_el_mapa escenario h r) (seqZ 0 24)) df)
  ∧ (suma_nat ((λ h, length (df_map df "Sólo graves o mortales" h)) <$> seqZ 0 24)
     ≤ graves_count df)%nat
  ∧ (graves_count df ≤ total_personas df)%nat.
Proof.
  assert (∀ esc,
    suma_nat ((λ h, length (df_map df esc h)) <$> seqZ 0 24)
    = length (filter (λ r, Exists (λ h, en_el_mapa esc h r) (seqZ 0 24)) df)) as Hsum.
  { intros esc.
    set (f := λ r : Fila, head (filter (λ h, en_el_mapa esc h r) (seqZ 0 24))).
    assert (∀ r h, f r = Some h ↔ h ∈ seqZ 0 24 ∧ en_el_mapa esc h r) as Hf.
    { intros r h. unfold f. split.
      - intros Hh. apply head_Some_elem_of, list_elem_of_filter in Hh. tauto.
      - intros [Hh He].
        destruct (filter (λ h, en_el_mapa esc h r) (seqZ 0 24)) as [|h' l] eqn:E.
        + assert (h ∈ filter (λ h, en_el_mapa esc h r) (seqZ 0 24)) as Hin
            by by apply list_elem_of_filter.
          rewrite E in Hin. by apply elem_of_nil in Hin.
        + simpl. f_equal.
          assert (h' ∈ h' :: l) as Hin by left. rewrite <- E in Hin.
          apply list_elem_of_filter in Hin as [(Hh' & _) _].
          destruct He as (Hhh & _). by eapply igual_Entero_unico. }
    rewrite (suma_nat_ext _ (λ h, length (filter (λ r, f r = Some h) df))).
    - rewrite (suma_de_grupos f (seqZ 0 24) df (NoDup_seqZ 0 24)).
      + apply filter_length_ext. intros r _. split.
        * intros [h Hh]. apply Hf in Hh as [Hh He].
          apply Exists_exists. eauto.
        * intros (h & Hh & He)%Exists_exists. exists h. by apply Hf.
      + intros r h _ Hh. by apply Hf in Hh as [? _].
    - intros h Hh. rewrite df_map_length. apply filter_length_ext.
      intros r _. rewrite Hf. tauto. }
  split_and!.
  - apply Hsum.
  - rewrite Hsum. unfold graves_count. apply filter_length_mono.
    intros r (h & _ & (_ & _ & _ & Hg & _))%Exists_exists. by apply Hg.
  - unfold graves_count, total_personas. apply length_filter.
Qed.

(** * The further properties on the sample tables *)


Lemma dia_semana_vocabulario_witness :
  (isna (campo "fecha" fila_a) = true → campo "dia_semana" preparada_a = NaN)
  ∧ (isna (campo "fecha" fila_a) = false →
     ∃ t d, campo "fecha" preparada_a = Marca t
            ∧ orden !! Z.to_nat ((dias_desde_epoca (year t) (month t) (day t) + 3) mod 7)
              = Some d
            ∧ d ∈ orden
            ∧ campo "dia_semana" preparada_a = Texto d).
Proof.
  exact (dia_semana_vocabulario fecha_dmy transformador_lineal
           None (Some archivo_ejemplo) archivo_ejemplo tabla_ejemplo
           0%nat fila_a preparada_a eq_refl carga_ejemplo eq_refl eq_refl).
Defined.

Lemma rango_edad_normalizado_witness :
  campo "rango_edad" preparada_a ≠ Texto "Más de 74 años"
  ∧ (campo "rango_edad" fila_a = Texto "Más de 74 años" →
     campo "rango_edad" preparada_a = Texto "> 74")
  ∧ (campo "rango_edad" fila_a ≠ Texto "Más de 74 años" →
     campo "rango_edad" preparada_a = campo "rango_edad" fila_a).
Proof.
  exact (rango_edad_normalizado fecha_dmy transformador_lineal
           None (Some archivo_ejemplo) archivo_ejemplo tabla_ejemplo
           0%nat fila_a preparada_a eq_refl carga_ejemplo eq_refl eq_refl).
Defined.

Lemma hora_num_de_hora_texto_witness :
  campo "hora_dt" preparada_c
  = Marca {| year := 1900; month := 1; day := 1; hour := 19; minute := 40; second := 0 |}
  ∧ campo "hora_num" preparada_c = Entero 19.
Proof.
  apply (hora_num_de_hora_texto fecha_dmy transformador_lineal
           None (Some archivo_ejemplo) archivo_ejemplo tabla_ejemplo
           2%nat fila_c preparada_c 19 40 0 eq_refl carga_ejemplo eq_refl eq_refl);
    [lia|lia|lia|].
  left. vm_compute. reflexivity.
Defined.


Lemma fig_alc_ejemplo :
  fig_alc tabla_ejemplo ["Viernes"; "Sábado"] = Lineas [("Sábado", [(3, 1%nat)])].
Proof. vm_compute. reflexivity. Defined.

Lemma fig_alc_cuenta_todo_witness :
  suma_nat ((λ t, suma_nat t.2.*2) <$> [("Sábado", [(3, 1%nat)])])
  = length (filter (λ r, is_Some (clave r)) (df_alc tabla_ejemplo ["Viernes"; "Sábado"])).
Proof.
  exact (fig_alc_cuenta_todo tabla_ejemplo ["Viernes"; "Sábado"]
           [("Sábado", [(3, 1%nat)])] fig_alc_ejemplo).
Defined.

Lemma fig_alc_horas_en_orden_witness :
  StronglySorted (λ a b : Z * nat, a.1 < b.1) [(3, 1%nat)].
Proof.
  apply (fig_alc_horas_en_orden tabla_ejemplo ["Viernes"; "Sábado"]
           [("Sábado", [(3, 1%nat)])] "Sábado" [(3, 1%nat)] fig_alc_ejemplo).
  left.
Defined.
